(** * mcp-persistent-shell: the session engine, embedded and verified

    A shallow embedding of
      - [shell/process.py]     (class [ShellProcess]),
      - [session/store.py]     (class [SessionStore]),
      - [session/manager.py]   (class [SessionManager]),
      - [security/validator.py] (class [SecurityValidator]),
      - [tools/execute_command.py] and the [execute_command] tool of
        [server.py],
    followed by the properties the specification states about them.

    Conventions.
      - Python [str] is [string], one character per code point; the
        development covers text whose code points are below 256.
      - [time.time()] readings are integers (ticks of the wall clock); every
        function that reads the clock takes its readings as arguments.
      - A method that may raise returns a [res]; a method that mutates its
        object threads the object through the [SE] monad, whose state
        survives a raise (as the object does in Python).
      - [pexpect] is an external library: a spawned child is modelled by
        what the program can observe of it, see [Module Pexpect]. *)

From Stdlib Require Import ZArith NArith Ascii String List Bool Lia DecimalString.
From stdpp Require Import gmap strings list fin_maps.

Local Open Scope Z_scope.
Local Open Scope string_scope.

(** ** Python built-ins used by the sources *)

Module Py.

(** [str.isspace] on one character, for code points below 256:
    TAB..CR, FS..US, SPACE, NEL and NBSP. *)
Definition isspace (c : ascii) : bool :=
  let n := N_of_ascii c in
  ((9 <=? n) && (n <=? 13) || (28 <=? n) && (n <=? 32)
   || (n =? 133) || (n =? 160))%N.

Fixpoint lstrip (s : string) : string :=
  match s with
  | EmptyString => EmptyString
  | String c s' => if isspace c then lstrip s' else s
  end.

Fixpoint rstrip (s : string) : string :=
  match s with
  | EmptyString => EmptyString
  | String c s' =>
      match rstrip s' with
      | EmptyString => if isspace c then EmptyString else String c EmptyString
      | r => String c r
      end
  end.

(** [s.strip()] *)
Definition strip (s : string) : string := rstrip (lstrip s).

(** The first whitespace-delimited word: [s.split()[0]] when [s.split()]
    is not empty. *)
Fixpoint word (s : string) : string :=
  match s with
  | EmptyString => EmptyString
  | String c s' => if isspace c then EmptyString else String c (word s')
  end.

Definition split_first (s : string) : option string :=
  match lstrip s with
  | EmptyString => None
  | t => Some (word t)
  end.

(** [sep.join(l)] *)
Fixpoint join (sep : string) (l : list string) : string :=
  match l with
  | [] => ""
  | [x] => x
  | x :: l' => x +:+ sep +:+ join sep l'
  end.

(** [x in l] for a list of strings *)
Definition contains (l : list string) (x : string) : bool :=
  existsb (String.eqb x) l.

(** [str(n)] and [f"{n}"] for an [int] *)
Definition str_of_int (n : Z) : string := NilZero.string_of_int (Z.to_int n).

Definition digit_val (c : ascii) : option Z :=
  let n := N_of_ascii c in
  if ((48 <=? n) && (n <=? 57))%N then Some (Z.of_N n - 48) else None.

(** Decimal digits, single underscores allowed between two digits. *)
Fixpoint digits (s : string) (acc : Z) (after_underscore : bool) : option Z :=
  match s with
  | EmptyString => if after_underscore then None else Some acc
  | String c s' =>
      if Ascii.eqb c "_"
      then (if after_underscore then None else digits s' acc true)
      else match digit_val c with
           | Some d => digits s' (10 * acc + d) false
           | None => None
           end
  end.

Definition unsigned (s : string) : option Z :=
  match s with
  | EmptyString => None
  | String c _ => if Ascii.eqb c "_" then None else digits s 0 false
  end.

(** [int(s)]: [Some n] when the conversion succeeds, [None] when it raises
    [ValueError].  Surrounding whitespace is ignored, one sign is allowed.
    (The interpreter's configurable cap on the number of digits is not
    modelled; no property below depends on which strings are rejected.) *)
Definition int_of_str (s : string) : option Z :=
  match strip s with
  | String "+" t => unsigned t
  | String "-" t => Z.opp <$> unsigned t
  | t => unsigned t
  end.

End Py.

(** ** Exceptions and the state-and-exception monad *)

Inductive exn_kind : Type :=
| RuntimeError | ValueError | ExceptionPexpect | TIMEOUT | EOF | OSError.

(** An exception object: its class and [str(e)]. *)
Record exn : Type := Exn { kind : exn_kind; str_of_exn : string }.

Inductive res (A : Type) : Type :=
| Ok (a : A)
| Raise (e : exn).
Arguments Ok {A} a.
Arguments Raise {A} e.

(** A method of an object of type [S]: it returns or raises, and leaves the
    object in a new state either way. *)
Definition SE (S A : Type) : Type := S -> res A * S.

Definition ret {S A} (a : A) : SE S A := fun s => (Ok a, s).
Definition raise {S A} (e : exn) : SE S A := fun s => (Raise e, s).
Definition bind {S A B} (m : SE S A) (k : A -> SE S B) : SE S B :=
  fun s => match m s with
           | (Ok a, s') => k a s'
           | (Raise e, s') => (Raise e, s')
           end.
Definition gets {S A} (f : S -> A) : SE S A := fun s => (Ok (f s), s).
Definition modify {S} (f : S -> S) : SE S unit := fun s => (Ok tt, f s).

(** [try: m / except: h] with [h] deciding which classes it handles. *)
Definition try_except {S A} (m : SE S A) (h : exn -> SE S A) : SE S A :=
  fun s => match m s with
           | (Ok a, s') => (Ok a, s')
           | (Raise e, s') => h e s'
           end.

(** [try: m / finally: f] *)
Definition try_finally {S A} (m : SE S A) (f : SE S unit) : SE S A :=
  fun s => match m s with
           | (r, s') => match f s' with
                        | (Ok _, s'') => (r, s'')
                        | (Raise e, s'') => (Raise e, s'')
                        end
           end.

(** [for x in l: body x] *)
Fixpoint for_each {S X} (l : list X) (body : X -> SE S unit) : SE S unit :=
  match l with
  | [] => ret tt
  | x :: l' => bind (body x) (fun _ => for_each l' body)
  end.

Declare Scope se_scope.
Delimit Scope se_scope with se.
Notation "'let!' x ':=' m 'in' k" := (bind m (fun x => k))
  (at level 10, x pattern, m at level 100, k at level 200) : se_scope.
Notation "'do!' m 'in' k" := (bind m (fun _ => k))
  (at level 10, m at level 100, k at level 200) : se_scope.
Local Open Scope se_scope.

(** ** The pexpect child process, as the program observes it *)

Module Pexpect.

(** What one wait on the pseudo-terminal yields. *)
Inductive event : Type :=
| Prompt (output : string)   (* the prompt marker arrives, after [output] *)
| Silence (output : string)  (* the deadline passes; [output] was received *)
| Closed (output : string)   (* end of stream, after [output] *)
| Fault (msg : string).      (* the operating system reports an error *)

(** A [pexpect.spawn] object: [alive] is what [isalive()] answers,
    [before] the attribute of that name, [script] what the coming waits
    will yield, [sent] the lines written so far (latest first). *)
Record spawn : Type := Spawn {
  alive : bool;
  before : option string;
  script : list event;
  sent : list string
}.

Definition isalive (p : spawn) : bool := alive p.

(** [p.before or ""] *)
Definition before_or_empty (p : spawn) : string :=
  match before p with
  | Some s => s
  | None => ""
  end.

(** [p.before = s] *)
Definition set_before (s : string) (p : spawn) : spawn :=
  Spawn (alive p) (Some s) (script p) (sent p).

(** [p.sendline(line)]: writing to a child that is gone fails. *)
Definition sendline (line : string) : SE spawn unit :=
  fun p =>
    if alive p
    then (Ok tt, Spawn (alive p) (before p) (script p) (line :: sent p))
    else (Raise (Exn OSError "[Errno 5] Input/output error"), p).

(** What the next wait yields: a child that has nothing more to say lets
    the wait run into its deadline with an empty buffer. *)
Definition next_wait (l : list event) : event * list event :=
  match l with
  | [] => (Silence "", [])
  | e :: rest => (e, rest)
  end.

(** [p.expect(prompt, timeout=timeout)].  Whether the deadline passes is
    the environment's choice, recorded in the event.  After an end of
    stream [isalive()] answers false. *)
Definition expect (prompt : string) (timeout : Z) : SE spawn unit :=
  fun p =>
    match next_wait (script p) with
    | (Prompt o, rest) => (Ok tt, Spawn (alive p) (Some o) rest (sent p))
    | (Silence o, rest) =>
        (Raise (Exn TIMEOUT "Timeout exceeded."),
         Spawn (alive p) (Some o) rest (sent p))
    | (Closed o, rest) =>
        (Raise (Exn EOF "End Of File (EOF)."),
         Spawn false (Some o) rest (sent p))
    | (Fault msg, rest) =>
        (Raise (Exn OSError msg), Spawn (alive p) (before p) rest (sent p))
    end.

(** [p.expect(pexpect.EOF, timeout=timeout)]: prompts are ordinary output
    for this wait, which goes on until the stream ends or the deadline
    passes. *)
Fixpoint expect_EOF_in (l : list event) (p : spawn) : res unit * spawn :=
  match l with
  | [] =>
      (Raise (Exn TIMEOUT "Timeout exceeded."),
       Spawn (alive p) (Some "") [] (sent p))
  | Prompt _ :: rest => expect_EOF_in rest p
  | Silence o :: rest =>
      (Raise (Exn TIMEOUT "Timeout exceeded."),
       Spawn (alive p) (Some o) rest (sent p))
  | Closed o :: rest => (Ok tt, Spawn false (Some o) rest (sent p))
  | Fault msg :: rest =>
      (Raise (Exn OSError msg), Spawn (alive p) (before p) rest (sent p))
  end.

Definition expect_EOF (timeout : Z) : SE spawn unit :=
  fun p => expect_EOF_in (script p) p.

(** [p.terminate(force=True)] *)
Definition terminate_force : SE spawn unit :=
  fun p => (Ok tt, Spawn false (before p) (script p) (sent p)).

End Pexpect.

(** ** The prompt-marker protocol, seen from the child's side

    One command takes two waits for the marker: one after the command
    line, one after the exit-status probe.  [verdict_of] reads off the
    script what those two waits come to. *)

Module Framer.
Import Pexpect.

Inductive verdict : Type :=
| Matched (output token : string)  (* both waits saw the marker *)
| TimedOut (partial : string)      (* a wait ran into its deadline *)
| StreamClosed (partial : string)  (* a wait saw the end of the stream *)
| Faulted (msg : string).          (* a wait failed otherwise *)

Definition verdict_of (l : list event) : verdict :=
  match next_wait l with
  | (Prompt output, rest) =>
      match next_wait rest with
      | (Prompt token, _) => Matched output token
      | (Silence b, _) => TimedOut b
      | (Closed b, _) => StreamClosed b
      | (Fault msg, _) => Faulted msg
      end
  | (Silence b, _) => TimedOut b
  | (Closed b, _) => StreamClosed b
  | (Fault msg, _) => Faulted msg
  end.

End Framer.

(** ** models.py *)

Module Models.

Inductive status_t : Type := success | error.

Record CommandResult : Type := mkCommandResult {
  status : status_t;
  exit_code : Z;
  stdout : string;
  stderr : string;
  command : string;
  execution_time : Z;
  security_info : option (list (string * (bool + string)))
}.

(** Values of the [dict[str, Any]] a tool returns. *)
Inductive value : Type :=
| VStr (s : string)
| VInt (n : Z)
| VFloat (t : Z)
| VNone
| VInfo (i : list (string * (bool + string))).

Definition dict : Type := list (string * value).

(** [d.get(k)] *)
Fixpoint dict_get (d : dict) (k : string) : option value :=
  match d with
  | [] => None
  | (k', v) :: d' => if String.eqb k k' then Some v else dict_get d' k
  end.

Definition str_of_status (s : status_t) : string :=
  match s with
  | success => "success"
  | error => "error"
  end.

(** [result.model_dump()] *)
Definition model_dump (r : CommandResult) : dict :=
  [ ("status", VStr (str_of_status (status r)));
    ("exit_code", VInt (exit_code r));
    ("stdout", VStr (stdout r));
    ("stderr", VStr (stderr r));
    ("command", VStr (command r));
    ("execution_time", VFloat (execution_time r));
    ("security_info",
      match security_info r with
      | Some i => VInfo i
      | None => VNone
      end) ].

End Models.

(** ** config.py: the settings the engine consumes *)

Module Config.

Record SecurityConfig : Type := mkSecurityConfig {
  enabled : bool;
  allowed_executables : list string;
  blocked_patterns : list string;
  max_execution_time : Z;
  max_output_size : Z;
  working_directory : string;
  run_as_user : string;
  audit_log : bool
}.

Record SessionConfig : Type := mkSessionConfig {
  timeout : Z;
  max_sessions : Z;
  cleanup_interval : Z
}.

Record ShellConfig : Type := mkShellConfig {
  default_shell : string;
  prompt_marker : string
}.

End Config.

(** ** shell/process.py *)

Module Shell.
Import Pexpect Models Config.

Record ShellProcess : Type := mkShellProcess {
  shell_config : ShellConfig;
  working_dir : string;
  process : option spawn;
  last_activity : Z;
  prompt : string
}.

(** The clock readings one [execute] call takes: [start_time], the reading
    subtracted from it for [execution_time], and the one stored in
    [last_activity]. *)
Record readings : Type := mkReadings {
  t_start : Z;
  t_done : Z;
  t_touch : Z
}.

Definition set_process (o : option spawn) (self : ShellProcess) : ShellProcess :=
  mkShellProcess (shell_config self) (working_dir self) o
                 (last_activity self) (prompt self).

Definition set_last_activity (t : Z) (self : ShellProcess) : ShellProcess :=
  mkShellProcess (shell_config self) (working_dir self) (process self)
                 t (prompt self).

(** [ShellProcess(shell_config, working_dir)], created at time [now]. *)
Definition __init__ (cfg : ShellConfig) (dir : string) (now : Z) : ShellProcess :=
  mkShellProcess cfg dir None now (prompt_marker cfg +:+ "> ").

(** Run [m] on [self.process]; [absent] is what happens when the
    attribute is [None]. *)
Definition with_process {A} (absent : SE ShellProcess A) (m : SE spawn A)
  : SE ShellProcess A :=
  fun self =>
    match process self with
    | Some p => let (r, p') := m p in (r, set_process (Some p') self)
    | None => absent self
    end.

Definition dquote : string := String (ascii_of_nat 34) EmptyString.

(** The closure [_spawn_shell] of [start]; [launch] is what
    [pexpect.spawn(default_shell, cwd=working_dir, ...)] does. *)
Definition _spawn_shell (self : ShellProcess) (launch : res spawn) : res spawn :=
  match launch with
  | Raise e => Raise e
  | Ok proc =>
      match (do! sendline ("export PS1=" +:+ dquote +:+ prompt self +:+ dquote) in
             expect (prompt self) 5) proc with
      | (Ok _, proc') => Ok (set_before "" proc')
      | (Raise e, _) => Raise e
      end
  end.

Definition start (launch : res spawn) (now : Z) : SE ShellProcess unit :=
  fun self =>
    match _spawn_shell self launch with
    | Ok proc => (Ok tt, set_last_activity now (set_process (Some proc) self))
    | Raise e => (Raise e, self)
    end.

Definition is_alive (self : ShellProcess) : bool :=
  match process self with
  | Some p => isalive p
  | None => false
  end.

Definition idle_time (self : ShellProcess) (now : Z) : Z :=
  now - last_activity self.

(** [f"Command timed out after {timeout}s"] *)
Definition timeout_message (timeout : Z) : string :=
  "Command timed out after " +:+ Py.str_of_int timeout +:+ "s".

(** The closure [_execute_command] of [execute], from [sendline(command)]
    on; it returns [(stdout, stderr, exit_code)]. *)
Definition _execute_command (self_prompt cmd : string) (timeout : Z)
  : SE spawn (string * string * Z) :=
  do! sendline cmd in
  try_except
    (do! expect self_prompt timeout in
     let! output := gets before_or_empty in
     do! sendline "echo $?" in
     do! expect self_prompt 5 in
     let! exit_code_str := gets (fun p => Py.strip (before_or_empty p)) in
     let code := match Py.int_of_str exit_code_str with
                 | Some n => n
                 | None => 0
                 end in
     ret (output, "", code))
    (fun e =>
       match kind e with
       | TIMEOUT =>
           let! output := gets before_or_empty in
           ret (output, timeout_message timeout, -1)
       | EOF => ret ("", "Shell process terminated", -1)
       | _ => raise e
       end).

(** [RuntimeError("Shell process is not running")] *)
Definition not_running : exn := Exn RuntimeError "Shell process is not running".

Definition execute (cmd : string) (timeout : Z) (t : readings)
  : SE ShellProcess CommandResult :=
  fun self =>
    match process self with
    | None => (Raise not_running, self)
    | Some p =>
        if negb (isalive p) then (Raise not_running, self)
        else
          match with_process
                  (raise (Exn RuntimeError "Shell process not initialized"))
                  (_execute_command (prompt self) cmd timeout) self with
          | (Ok (out, err, code), self') =>
              (Ok (mkCommandResult
                     (if (code =? 0)%Z then success else error)
                     code (Py.strip out) err cmd
                     (t_done t - t_start t) None),
               set_last_activity (t_touch t) self')
          | (Raise e, self') =>
              (Ok (mkCommandResult error (-1) "" (str_of_exn e) cmd
                     (t_done t - t_start t) None),
               self')
          end
    end.

Definition get_cwd (t : readings) : SE ShellProcess string :=
  let! result := execute "pwd" 5 t in
  match status result with
  | success => ret (Py.strip (stdout result))
  | error => gets working_dir
  end.

(** The closure [_terminate] of [terminate]. *)
Definition _terminate : SE spawn unit :=
  try_finally
    (try_except (do! sendline "exit" in expect_EOF 5) (fun _ => ret tt))
    (let! still := gets isalive in
     if still then terminate_force else ret tt).

Definition terminate : SE ShellProcess unit :=
  fun self =>
    match process self with
    | None => (Ok tt, self)
    | Some p =>
        if isalive p
        then (do! with_process (ret tt) _terminate in
              modify (set_process None)) self
        else (Ok tt, self)
    end.

Definition reset (launch : res spawn) (now : Z) : SE ShellProcess unit :=
  do! terminate in start launch now.

End Shell.

(** ** session/store.py *)

Module Store.
Import Shell.

(** [_sessions] is the dict.  [released] is bookkeeping of the model: the
    objects [delete] popped from the dict, latest first, in the state
    [terminate] left them in.  Python keeps such an object for whoever
    still holds a reference to it; the model keeps it here so that what
    happened to it can be stated. *)
Record SessionStore : Type := mkSessionStore {
  _sessions : gmap string ShellProcess;
  released : list (string * ShellProcess)
}.

Definition __init__ : SessionStore := mkSessionStore ∅ [].

Definition create (session_id : string) (shell_process : ShellProcess)
  : SE SessionStore unit :=
  modify (fun self =>
            mkSessionStore (<[session_id := shell_process]> (_sessions self))
                           (released self)).

Definition get (session_id : string) : SE SessionStore (option ShellProcess) :=
  gets (fun self => _sessions self !! session_id).

Definition delete (session_id : string) : SE SessionStore bool :=
  fun self =>
    match _sessions self !! session_id with
    | Some shell =>
        let (r, shell') := terminate shell in
        let self' := mkSessionStore (base.delete session_id (_sessions self))
                                    ((session_id, shell') :: released self) in
        match r with
        | Ok _ => (Ok true, self')
        | Raise e => (Raise e, self')
        end
    | None => (Ok false, self)
    end.

(** [list(self._sessions.keys())]; the order of the keys is the map's,
    not the insertion order of the dict. *)
Definition get_all_ids : SE SessionStore (list string) :=
  gets (fun self => (map_to_list (_sessions self)).*1).

Definition count : SE SessionStore Z :=
  gets (fun self => Z.of_nat (size (_sessions self))).

End Store.

(** ** session/manager.py *)

Module Manager.
Import Config Shell Store.

Record SessionManager : Type := mkSessionManager {
  session_config : SessionConfig;
  shell_config : ShellConfig;
  security_config : SecurityConfig;
  store : SessionStore
}.

Definition __init__ (session_cfg : SessionConfig) (shell_cfg : ShellConfig)
           (security_cfg : SecurityConfig) : SessionManager :=
  mkSessionManager session_cfg shell_cfg security_cfg Store.__init__.

(** The manager [self] once its store has become [st], and once the dict
    of its store has become [m]. *)
Definition set_store (st : SessionStore) (self : SessionManager) : SessionManager :=
  mkSessionManager (session_config self) (Manager.shell_config self)
                   (security_config self) st.

Definition set_sessions (m : gmap string ShellProcess) (self : SessionManager)
  : SessionManager :=
  set_store (mkSessionStore m (released (store self))) self.

(** Run a method of [self.store]. *)
Definition with_store {A} (m : SE SessionStore A) : SE SessionManager A :=
  fun self => let (r, st) := m (store self) in (r, set_store st self).

(** [create_session] in the three stretches its [await]s divide it into:
    the capacity check, the construction and start of the shell, and the
    insertion into the store.  [session_id] is the value of
    [str(uuid.uuid4())], [launch] what [pexpect.spawn] does, [t_init] and
    [t_started] the clock readings of the constructor and of [start]. *)
Definition create_session_check : SE SessionManager unit :=
  let! n := with_store count in
  let! cfg := gets session_config in
  if n >=? max_sessions cfg
  then raise (Exn RuntimeError
                  ("Maximum sessions limit reached ("
                     +:+ Py.str_of_int (max_sessions cfg) +:+ ")"))
  else ret tt.

Definition create_session_start (launch : res Pexpect.spawn) (t_init t_started : Z)
  : SE SessionManager ShellProcess :=
  let! shell_cfg := gets Manager.shell_config in
  let! security_cfg := gets security_config in
  let shell := Shell.__init__ shell_cfg (working_directory security_cfg) t_init in
  match start launch t_started shell with
  | (Ok _, shell') => ret shell'
  | (Raise e, _) => raise e
  end.

Definition create_session_store (session_id : string) (shell : ShellProcess)
  : SE SessionManager (string * ShellProcess) :=
  do! with_store (create session_id shell) in
  ret (session_id, shell).

Definition create_session (session_id : string) (launch : res Pexpect.spawn)
           (t_init t_started : Z) : SE SessionManager (string * ShellProcess) :=
  do! create_session_check in
  let! shell := create_session_start launch t_init t_started in
  create_session_store session_id shell.

Definition get_session (session_id : string)
  : SE SessionManager (option ShellProcess) :=
  let! shell := with_store (get session_id) in
  match shell with
  | Some sh =>
      if negb (is_alive sh)
      then do! with_store (delete session_id) in ret None
      else ret (Some sh)
  | None => ret None
  end.

Definition delete_session (session_id : string) : SE SessionManager bool :=
  with_store (delete session_id).

(** The body of the loop of [_cleanup_expired_sessions]; [clock session_id]
    is the reading [idle_time()] takes when the sweep looks at that
    session. *)
Definition _cleanup_one (clock : string -> Z) (session_id : string)
  : SE SessionManager unit :=
  let! shell := with_store (get session_id) in
  match shell with
  | Some sh =>
      let idle := idle_time sh (clock session_id) in
      let! cfg := gets session_config in
      if idle >? timeout cfg
      then do! with_store (delete session_id) in ret tt
      else if negb (is_alive sh)
           then do! with_store (delete session_id) in ret tt
           else ret tt
  | None => ret tt
  end.

Definition _cleanup_expired_sessions (clock : string -> Z)
  : SE SessionManager unit :=
  let! session_ids := with_store get_all_ids in
  for_each session_ids (_cleanup_one clock).

End Manager.

(** ** security/validator.py *)

Module Validator.
Import Config.

(** A compiled [re.Pattern]: its source text and its [search] method.
    The regular-expression engine itself is not part of this program. *)
Record Pattern : Type := mkPattern {
  pattern : string;
  search : string -> bool
}.

Record SecurityValidator : Type := mkSecurityValidator {
  config : SecurityConfig;
  _compiled_patterns : list Pattern
}.

Definition is_enabled (self : SecurityValidator) : bool :=
  enabled (config self).

(** The loop over [_compiled_patterns]. *)
Fixpoint check_blocklist (ps : list Pattern) (cmd : string) : res unit :=
  match ps with
  | [] => Ok tt
  | p :: ps' =>
      if search p cmd
      then Raise (Exn ValueError
                      ("Command matches blocked pattern: " +:+ pattern p))
      else check_blocklist ps' cmd
  end.

Definition validate_command (self : SecurityValidator) (cmd : string) : res unit :=
  if negb (enabled (config self)) then Ok tt
  else
    let cmd := Py.strip cmd in
    match cmd with
    | EmptyString => Raise (Exn ValueError "Empty command")
    | String _ _ =>
        let executable := default "" (Py.split_first cmd) in
        let allowed := allowed_executables (config self) in
        match allowed with
        | _ :: _ =>
            if negb (Py.contains allowed executable)
            then Raise (Exn ValueError
                            ("Command '" +:+ executable
                               +:+ "' is not in the allowlist. Allowed: "
                               +:+ Py.join ", " allowed))
            else check_blocklist (_compiled_patterns self) cmd
        | [] => check_blocklist (_compiled_patterns self) cmd
        end
    end.

End Validator.

(** ** tools/execute_command.py *)

Module Tools.
Import Models Shell Store Manager Validator.

(** The dict both tool entry points build for a failure of their own. *)
Definition error_dict (msg cmd : string) : dict :=
  [ ("status", VStr "error");
    ("exit_code", VInt (-1));
    ("stdout", VStr "");
    ("stderr", VStr msg);
    ("command", VStr cmd);
    ("execution_time", VFloat 0) ].

(** [shell.execute(...)] on the object the store holds under
    [session_id]: the dict keeps referring to that object, so its new
    state is the one found there afterwards. *)
Definition execute_in_store (session_id : string) (sh : ShellProcess)
           (cmd : string) (timeout : Z) (t : readings)
  : SE SessionManager CommandResult :=
  fun self =>
    let (r, sh') := execute cmd timeout t sh in
    (r, set_sessions (<[session_id := sh']> (_sessions (store self))) self).

Definition handle_execute_command (session_id cmd : string) (timeout : Z)
           (security_validator : SecurityValidator) (t : readings)
  : SE SessionManager dict :=
  match validate_command security_validator cmd with
  | Raise e =>
      match kind e with
      | ValueError =>
          ret (error_dict ("Security validation failed: " +:+ str_of_exn e) cmd)
      | _ => raise e
      end
  | Ok _ =>
      let! shell := get_session session_id in
      match shell with
      | None => ret (error_dict "Session not found or expired" cmd)
      | Some sh =>
          let! result := execute_in_store session_id sh cmd timeout t in
          ret (model_dump result)
      end
  end.

End Tools.

(** ** server.py: the global shell and the [execute_command] tool *)

Module Server.
Import Config Models Shell Validator.

Record state : Type := mkState {
  shell_cfg : ShellConfig;
  security_cfg : SecurityConfig;
  security_validator : SecurityValidator;
  global_shell : option ShellProcess
}.

Definition set_global_shell (o : option ShellProcess) (st : state) : state :=
  mkState (shell_cfg st) (security_cfg st) (security_validator st) o.

(** [launch], [t_init] and [t_started] are used when a shell has to be
    spawned. *)
Definition ensure_shell (launch : res Pexpect.spawn) (t_init t_started : Z)
  : SE state ShellProcess :=
  fun st =>
    let fresh :=
      let shell := Shell.__init__ (shell_cfg st)
                                  (working_directory (security_cfg st)) t_init in
      match start launch t_started shell with
      | (Ok _, shell') => (Ok shell', set_global_shell (Some shell') st)
      | (Raise e, shell') => (Raise e, set_global_shell (Some shell') st)
      end in
    match global_shell st with
    | None => fresh
    | Some sh => if negb (is_alive sh) then fresh else (Ok sh, st)
    end.

Definition execute_command (cmd : string) (timeout : Z)
           (launch : res Pexpect.spawn) (t_init t_started : Z) (t : readings)
  : SE state dict :=
  fun st =>
    match validate_command (security_validator st) cmd with
    | Raise e =>
        match kind e with
        | ValueError =>
            (Ok (Tools.error_dict
                   ("Security validation failed: " +:+ str_of_exn e) cmd), st)
        | _ => (Raise e, st)
        end
    | Ok _ =>
        match ensure_shell launch t_init t_started st with
        | (Raise e, st') => (Raise e, st')
        | (Ok sh, st') =>
            let (r, sh') := execute cmd timeout t sh in
            let st'' := set_global_shell (Some sh') st' in
            match r with
            | Ok result => (Ok (model_dump result), st'')
            | Raise e => (Raise e, st'')
            end
        end
    end.

End Server.

(** ** tools/get_cwd.py and tools/reset_session.py *)

Module Handlers.
Import Models Shell Store Manager.

(** A method call on the object the store holds under [session_id]: the
    dict keeps referring to that object, so its new state is the one found
    there afterwards, whether the method returned or raised. *)
Definition on_stored_shell {A} (session_id : string) (sh : ShellProcess)
           (m : SE ShellProcess A) : SE SessionManager A :=
  fun self =>
    let (r, sh') := m sh in
    (r, set_sessions (<[session_id := sh']> (_sessions (store self))) self).

Definition not_found : dict := [("error", VStr "Session not found or expired")].

Definition handle_get_cwd (session_id : string) (t : readings)
  : SE SessionManager dict :=
  let! shell := get_session session_id in
  match shell with
  | None => ret not_found
  | Some sh =>
      let! cwd := on_stored_shell session_id sh (get_cwd t) in
      ret [("cwd", VStr cwd)]
  end.

Definition reset_done : dict :=
  [("status", VStr "reset");
   ("message", VStr "Shell session has been reset to clean state")].

(** [launch] and [now] are what [pexpect.spawn] does and the clock reading
    when [reset] starts the new shell. *)
Definition handle_reset_session (session_id : string)
           (launch : res Pexpect.spawn) (now : Z) : SE SessionManager dict :=
  let! shell := get_session session_id in
  match shell with
  | None => ret not_found
  | Some sh =>
      do! on_stored_shell session_id sh (reset launch now) in
      ret reset_done
  end.

End Handlers.

(** ** server.py: the other tools on the global shell *)

Module ServerTools.
Import Models Shell Server.

(** A method call on the global shell object. *)
Definition on_global_shell {A} (sh : ShellProcess) (m : SE ShellProcess A)
  : SE state A :=
  fun st => let (r, sh') := m sh in (r, set_global_shell (Some sh') st).


(** [launch] serves [ensure_shell], [relaunch] the [start] inside
    [reset]. *)
Definition reset_session (launch : res Pexpect.spawn) (t_init t_started : Z)
           (relaunch : res Pexpect.spawn) (now : Z) : SE state dict :=
  let! shell := ensure_shell launch t_init t_started in
  do! on_global_shell shell (reset relaunch now) in
  ret Handlers.reset_done.

End ServerTools.

(** ** session/manager.py: the cleanup task and shutdown

    The manager together with its [_cleanup_task] attribute.  The task
    itself runs [_cleanup_loop], which sleeps and sweeps for ever; here it
    is only known to be scheduled or not. *)

Module Lifecycle.
Import Shell Store Manager.

Inductive Task : Type := CleanupLoop.

Record Service : Type := mkService {
  manager : SessionManager;
  _cleanup_task : option Task
}.

(** Run a method of the manager proper. *)
Definition with_manager {A} (m : SE SessionManager A) : SE Service A :=
  fun self =>
    let (r, mgr) := m (manager self) in (r, mkService mgr (_cleanup_task self)).

Definition start_cleanup_task : SE Service unit :=
  fun self =>
    match _cleanup_task self with
    | None => (Ok tt, mkService (manager self) (Some CleanupLoop))
    | Some _ => (Ok tt, self)
    end.

(** Cancelling the task and awaiting it raises [CancelledError], which is
    swallowed. *)
Definition stop_cleanup_task : SE Service unit :=
  fun self =>
    match _cleanup_task self with
    | Some _ => (Ok tt, mkService (manager self) None)
    | None => (Ok tt, self)
    end.

Definition shutdown : SE Service unit :=
  do! stop_cleanup_task in
  let! session_ids := with_manager (with_store get_all_ids) in
  for_each session_ids
           (fun session_id =>
              do! with_manager (with_store (Store.delete session_id)) in ret tt).

End Lifecycle.

(** ** Histories of calls on one session manager

    The calls a caller can make on a [SessionManager], with what the
    environment contributes to each, and the manager they leave behind
    when made one after the other. *)

Module Registry.
Import Shell Store Manager Validator.

Inductive call : Type :=
| CreateSession (session_id : string) (launch : res Pexpect.spawn)
                (t_init t_started : Z)
| GetSession (session_id : string)
| DeleteSession (session_id : string)
| CleanupExpiredSessions (clock : string -> Z)
| HandleExecuteCommand (session_id cmd : string) (timeout : Z)
                       (security_validator : SecurityValidator) (t : readings).

Definition run_call (c : call) (self : SessionManager) : SessionManager :=
  match c with
  | CreateSession session_id launch t_init t_started =>
      snd (create_session session_id launch t_init t_started self)
  | GetSession session_id => snd (get_session session_id self)
  | DeleteSession session_id => snd (delete_session session_id self)
  | CleanupExpiredSessions clock => snd (_cleanup_expired_sessions clock self)
  | HandleExecuteCommand session_id cmd timeout v t =>
      snd (Tools.handle_execute_command session_id cmd timeout v t self)
  end.

Definition run_calls (cs : list call) (self : SessionManager) : SessionManager :=
  fold_left (fun m c => run_call c m) cs self.

(** [self'] has the configuration of [self] and no more sessions. *)
Definition shrinks (self self' : SessionManager) : Prop :=
  session_config self' = session_config self
  /\ (size (_sessions (Manager.store self')) <= size (_sessions (Manager.store self)))%nat.

End Registry.

(** ** Concrete sessions used to run the definitions *)

Module Fixtures.
Import Pexpect Config Shell.

Definition crlf : string := String "013" (String "010" EmptyString).

Definition sh_config : ShellConfig := mkShellConfig "/bin/sh" "__TEST__".

(** A freshly started child that will go through the waits [l]. *)
Definition child (l : list event) : spawn := Spawn true (Some "") l [].

Definition session (l : list event) : ShellProcess :=
  mkShellProcess sh_config "/workspace" (Some (child l)) 0 "__TEST__> ".

Definition unstarted : ShellProcess := Shell.__init__ sh_config "/workspace" 0.

Definition ticks : readings := mkReadings 100 103 104.

(** Bytes a command left in the buffer: a line with its indentation and
    the line ending of the terminal. *)
Definition raw_partial : string := " partial" +:+ crlf.

(** A shell that starts and shows its prompt, the child [start] leaves
    behind for it, and a shell binary that cannot be launched. *)
Definition launch_ok : res spawn := Ok (child [Prompt ""]).

Definition started_child : spawn :=
  Spawn true (Some "")
        [] ["export PS1=" +:+ Shell.dquote +:+ "__TEST__> " +:+ Shell.dquote].

Definition launch_fails : res spawn :=
  Raise (Exn ExceptionPexpect
             "The command was not found or was not executable: /bin/nosuch.").

Definition security_off : SecurityConfig :=
  mkSecurityConfig false [] [] 30 1048576 "/workspace" "" true.

Definition security_on : SecurityConfig :=
  mkSecurityConfig true [] [] 30 1048576 "/workspace" "" true.

(** A validator with validation switched on and no rule configured: it
    rejects an empty command and nothing else. *)
Definition strict : Validator.SecurityValidator :=
  Validator.mkSecurityValidator security_on [].

Definition lenient : Validator.SecurityValidator :=
  Validator.mkSecurityValidator security_off [].

(** A manager with room for [n] sessions and a one-hour idle timeout. *)
Definition manager (n : Z) : Manager.SessionManager :=
  Manager.__init__ (mkSessionConfig 3600 n 300) sh_config security_off.

(** A manager holding the given sessions. *)
Definition manager_with (n : Z) (l : list (string * ShellProcess))
  : Manager.SessionManager :=
  Manager.mkSessionManager (mkSessionConfig 3600 n 300) sh_config security_off
                           (Store.mkSessionStore (list_to_map l) []).

(** Three registered sessions: one silent since time 0, one used at time
    4000, one whose child has died. *)
Definition idle_session : ShellProcess := session [Silence ""].

Definition busy_session : ShellProcess :=
  set_last_activity 4000 (session [Prompt "x"]).

Definition dead_session : ShellProcess :=
  mkShellProcess sh_config "/workspace" (Some (Spawn false (Some "") [] []))
                 4990 "__TEST__> ".

Definition three_sessions : Manager.SessionManager :=
  manager_with 10 [("idle", idle_session); ("busy", busy_session);
                   ("dead", dead_session)].

(** A sweep that looks at every session at time 5000. *)
Definition at_5000 : string -> Z := fun _ => 5000.

(** Two [create_session] calls that overlap: each passes its capacity
    check before either has stored its session. *)
Definition two_overlapping_creates : SE Manager.SessionManager unit :=
  do! Manager.create_session_check in
  do! Manager.create_session_check in
  let! shell_a := Manager.create_session_start launch_ok 0 1 in
  let! shell_b := Manager.create_session_start launch_ok 0 1 in
  do! Manager.create_session_store "a" shell_a in
  do! Manager.create_session_store "b" shell_b in
  ret tt.

(** A server whose validator is [strict] and whose global shell has not
    been created yet. *)
Definition server0 : Server.state :=
  Server.mkState sh_config security_on strict None.

(** A compiled pattern without metacharacters: [search] is substring
    search. *)
Definition literal (text : string) : Validator.Pattern :=
  Validator.mkPattern text
    (fun s => match String.index 0 text s with
              | Some _ => true
              | None => false
              end).

(** An allowlist of two executables and one blocked pattern. *)
Definition guarded : Validator.SecurityValidator :=
  Validator.mkSecurityValidator
    (mkSecurityConfig true ["ls"; "rm"] ["rm -rf"] 30 1048576 "/workspace" "" true)
    [literal "rm -rf"].

End Fixtures.

(** * Properties *)

(** ** Python built-ins *)

Section PyFacts.
Import Py.

Lemma lstrip_head (s : string) :
  lstrip s = EmptyString \/
  exists c t, lstrip s = String c t /\ isspace c = false.
Proof.
  induction s as [|c s IH]; simpl; [now left|].
  destruct (isspace c) eqn:E; [exact IH|].
  right. now exists c, s.
Qed.

Lemma rstrip_head (c : ascii) (t : string) :
  isspace c = false -> exists t', rstrip (String c t) = String c t'.
Proof.
  intros E. simpl. destruct (rstrip t); [rewrite E|]; eauto.
Qed.

Lemma rstrip_cons (c : ascii) (s : string) :
  rstrip (String c s) =
  match rstrip s with
  | EmptyString => if isspace c then EmptyString else String c EmptyString
  | r => String c r
  end.
Proof. reflexivity. Qed.

Lemma rstrip_idem (s : string) : rstrip (rstrip s) = rstrip s.
Proof.
  induction s as [|c s IH]; [reflexivity|].
  rewrite rstrip_cons.
  destruct (rstrip s) as [|d r] eqn:E.
  - destruct (isspace c) eqn:Ec; [reflexivity|].
    rewrite rstrip_cons. simpl. now rewrite Ec.
  - rewrite rstrip_cons, IH. reflexivity.
Qed.

Lemma lstrip_nonspace (c : ascii) (t : string) :
  isspace c = false -> lstrip (String c t) = String c t.
Proof. intros E. simpl. now rewrite E. Qed.

Lemma strip_idem (s : string) : strip (strip s) = strip s.
Proof.
  unfold strip.
  destruct (lstrip_head s) as [E|(c & t & E & Hc)]; rewrite E; [reflexivity|].
  destruct (rstrip_head c t Hc) as [t' E'].
  rewrite E', (lstrip_nonspace _ _ Hc), <- E'. apply rstrip_idem.
Qed.

Lemma strip_empty : strip "" = "".
Proof. reflexivity. Qed.

Example strip_ex : Py.strip (" hi" +:+ String "013" (String "010" " ")) = "hi".
Proof. reflexivity. Qed.

Example int_ex1 : Py.int_of_str " 127 " = Some 127. Proof. reflexivity. Qed.
Example int_ex2 : Py.int_of_str "-1_0" = Some (-10). Proof. reflexivity. Qed.
Example int_ex3 : Py.int_of_str "1__0" = None. Proof. reflexivity. Qed.
Example int_ex4 : Py.int_of_str "" = None. Proof. reflexivity. Qed.
Example int_ex5 : Py.int_of_str "bash: no" = None. Proof. reflexivity. Qed.
Example str_ex1 : Py.str_of_int 30 = "30". Proof. reflexivity. Qed.
Example str_ex2 : Py.str_of_int (-1) = "-1". Proof. reflexivity. Qed.
Example str_ex3 : Py.str_of_int 0 = "0". Proof. reflexivity. Qed.
Example split_ex : Py.split_first "  rm -rf /" = Some "rm". Proof. reflexivity. Qed.
Example join_ex : Py.join ", " ["ls"; "cat"] = "ls, cat". Proof. reflexivity. Qed.

End PyFacts.

(** ** [ShellProcess.execute], wait by wait *)

Section ExecuteRunning.
Import Pexpect Framer Models Shell.

Variables (self : ShellProcess) (p : spawn).
Variables (cmd : string) (timeout : Z) (t : readings).
Hypothesis Hproc : process self = Some p.
Hypothesis Halive : isalive p = true.

Ltac run_execute :=
  unfold execute, with_process, _execute_command, bind, try_except, gets,
    ret, raise, sendline, expect, isalive in *;
  rewrite Hproc; destruct p as [al bf sc sn]; simpl in *; subst al; simpl.

Lemma execute_TimedOut (b : string) :
  verdict_of (script p) = TimedOut b ->
  exists p',
    execute cmd timeout t self =
      (Ok (mkCommandResult error (-1) (Py.strip b) (timeout_message timeout) cmd
                           (t_done t - t_start t) None),
       set_last_activity (t_touch t) (set_process (Some p') self))
    /\ isalive p' = true.
Proof.
  unfold verdict_of. run_execute.
  destruct (next_wait sc) as [[o|o|o|m] rest]; simpl; try discriminate.
  - destruct (next_wait rest) as [[o2|o2|o2|m2] rest2]; simpl;
      try discriminate.
    intros [= ->]. eexists; split; reflexivity.
  - intros [= ->]. eexists; split; reflexivity.
Qed.

Lemma execute_StreamClosed (b : string) :
  verdict_of (script p) = StreamClosed b ->
  exists p',
    execute cmd timeout t self =
      (Ok (mkCommandResult error (-1) "" "Shell process terminated" cmd
                           (t_done t - t_start t) None),
       set_last_activity (t_touch t) (set_process (Some p') self))
    /\ isalive p' = false.
Proof.
  unfold verdict_of. run_execute.
  destruct (next_wait sc) as [[o|o|o|m] rest]; simpl; try discriminate.
  - destruct (next_wait rest) as [[o2|o2|o2|m2] rest2]; simpl;
      try discriminate.
    intros _. eexists; split; reflexivity.
  - intros _. eexists; split; reflexivity.
Qed.

Lemma execute_Matched (output token : string) :
  verdict_of (script p) = Matched output token ->
  let code := default 0 (Py.int_of_str (Py.strip token)) in
  exists p',
    execute cmd timeout t self =
      (Ok (mkCommandResult (if (code =? 0)%Z then success else error) code
                           (Py.strip output) "" cmd
                           (t_done t - t_start t) None),
       set_last_activity (t_touch t) (set_process (Some p') self))
    /\ isalive p' = true.
Proof.
  unfold verdict_of. run_execute.
  destruct (next_wait sc) as [[o|o|o|m] rest]; simpl; try discriminate.
  destruct (next_wait rest) as [[o2|o2|o2|m2] rest2]; simpl;
    try discriminate.
  intros [= -> ->]. cbn [before_or_empty before].
  eexists; split;
    [destruct (Py.int_of_str (Py.strip token)); reflexivity|reflexivity].
Qed.

Lemma execute_Faulted (msg : string) :
  verdict_of (script p) = Faulted msg ->
  exists p',
    execute cmd timeout t self =
      (Ok (mkCommandResult error (-1) "" msg cmd
                           (t_done t - t_start t) None),
       set_process (Some p') self)
    /\ isalive p' = true.
Proof.
  unfold verdict_of. run_execute.
  destruct (next_wait sc) as [[o|o|o|m] rest]; simpl; try discriminate.
  - destruct (next_wait rest) as [[o2|o2|o2|m2] rest2]; simpl;
      try discriminate.
    intros [= ->]. eexists; split; reflexivity.
  - intros [= ->]. eexists; split; reflexivity.
Qed.

End ExecuteRunning.

(** ** Claims about [ShellProcess.execute] *)

Section ExecuteClaims.
Import Pexpect Framer Models Shell.

Lemma is_alive_set_last_activity (x : Z) (self : ShellProcess) :
  is_alive (set_last_activity x self) = is_alive self.
Proof. reflexivity. Qed.

Lemma is_alive_set_process (p : spawn) (self : ShellProcess) :
  is_alive (set_process (Some p) self) = isalive p.
Proof. reflexivity. Qed.

Lemma timeout_message_head (timeout : Z) :
  exists rest, timeout_message timeout = String "C" rest.
Proof. unfold timeout_message. simpl. eauto. Qed.

(** C1 (amended).  On a running session, when a wait for the prompt
    marker runs into its deadline with [b] in the buffer, [execute]
    returns a result with exit code -1, stdout equal to [b] with leading
    and trailing whitespace stripped, and the stderr message
    "Command timed out after <timeout>s", and the session is still alive;
    when the stream ends instead, the result has exit code -1 and stderr
    "Shell process terminated", and the session is no longer alive.  The
    two stderr messages differ for every timeout. *)
Theorem execute_timeout_vs_termination
        (self : ShellProcess) (p : spawn) (cmd : string) (timeout : Z)
        (t : readings) :
  process self = Some p ->
  isalive p = true ->
  (forall b, verdict_of (script p) = TimedOut b ->
     exists r self',
       execute cmd timeout t self = (Ok r, self')
       /\ exit_code r = -1
       /\ stdout r = Py.strip b
       /\ stderr r = timeout_message timeout
       /\ is_alive self' = true)
  /\ (forall b, verdict_of (script p) = StreamClosed b ->
     exists r self',
       execute cmd timeout t self = (Ok r, self')
       /\ exit_code r = -1
       /\ stderr r = "Shell process terminated"
       /\ is_alive self' = false)
  /\ timeout_message timeout <> "Shell process terminated".
Proof.
  intros Hproc Halive. repeat split.
  - intros b Hv.
    destruct (execute_TimedOut self p cmd timeout t Hproc Halive b Hv)
      as (p' & -> & Hp').
    do 2 eexists. repeat split. exact Hp'.
  - intros b Hv.
    destruct (execute_StreamClosed self p cmd timeout t Hproc Halive b Hv)
      as (p' & -> & Hp').
    do 2 eexists. repeat split. exact Hp'.
  - destruct (timeout_message_head timeout) as [rest ->]. discriminate.
Qed.

(** C2.  Whenever [execute] returns a result, its status is "success"
    exactly when its exit code is 0; every other exit code, the sentinel
    -1 included, comes with status "error". *)
Theorem execute_status_iff_exit_code
        (self self' : ShellProcess) (cmd : string) (timeout : Z)
        (t : readings) (r : CommandResult) :
  execute cmd timeout t self = (Ok r, self') ->
  (status r = success <-> exit_code r = 0)
  /\ (exit_code r <> 0 -> status r = error).
Proof.
  unfold execute.
  destruct (process self) as [p|]; [|discriminate].
  destruct (negb (isalive p)); [discriminate|].
  destruct (with_process _ _ self) as [[[[out err] code]|e] s'];
    intros [= <- _]; simpl.
  - destruct (Z.eqb_spec code 0); split; try split; congruence.
  - split; [split|]; intros; [discriminate|lia|reflexivity].
Qed.

(** C3.  When both waits see the prompt marker but the token the
    exit-status probe printed is not an integer for [int()], the exit
    code is 0 and the status "success". *)
Theorem execute_unparseable_exit_code
        (self : ShellProcess) (p : spawn) (cmd : string) (timeout : Z)
        (t : readings) (output token : string) :
  process self = Some p ->
  isalive p = true ->
  verdict_of (script p) = Matched output token ->
  Py.int_of_str (Py.strip token) = None ->
  exists r self',
    execute cmd timeout t self = (Ok r, self')
    /\ exit_code r = 0
    /\ status r = success.
Proof.
  intros Hproc Halive Hv Hint.
  destruct (execute_Matched self p cmd timeout t Hproc Halive _ _ Hv)
    as (p' & -> & _).
  rewrite Hint. do 2 eexists. repeat split.
Qed.

(** C10.  On a running session, when the stream ends before the prompt
    marker reappears, the result's stdout is the empty string whatever
    had been received; when a wait runs into its deadline, stdout is what
    had been received (stripped of surrounding whitespace, as every
    stdout is). *)
Theorem execute_termination_discards_output
        (self : ShellProcess) (p : spawn) (cmd : string) (timeout : Z)
        (t : readings) :
  process self = Some p ->
  isalive p = true ->
  (forall b, verdict_of (script p) = StreamClosed b ->
     exists r self',
       execute cmd timeout t self = (Ok r, self') /\ stdout r = "")
  /\ (forall b, verdict_of (script p) = TimedOut b ->
     exists r self',
       execute cmd timeout t self = (Ok r, self') /\ stdout r = Py.strip b).
Proof.
  intros Hproc Halive. split; intros b Hv.
  - destruct (execute_StreamClosed self p cmd timeout t Hproc Halive b Hv)
      as (p' & -> & _).
    do 2 eexists. split; reflexivity.
  - destruct (execute_TimedOut self p cmd timeout t Hproc Halive b Hv)
      as (p' & -> & _).
    do 2 eexists. split; reflexivity.
Qed.

End ExecuteClaims.


(** ** Concrete runs of [execute] *)

Section ExecuteRuns.
Import Pexpect Framer Models Shell Fixtures.

Lemma execute_timeout_vs_termination_witness :
  (exists r self',
     execute "sleep 5" 1 ticks (session [Silence raw_partial]) = (Ok r, self')
     /\ exit_code r = -1
     /\ stdout r = Py.strip raw_partial
     /\ stderr r = timeout_message 1
     /\ is_alive self' = true)
  /\ (exists r self',
     execute "exit 7" 30 ticks (session [Closed "logout"]) = (Ok r, self')
     /\ exit_code r = -1
     /\ stderr r = "Shell process terminated"
     /\ is_alive self' = false).
Proof.
  split.
  - exact (proj1 (execute_timeout_vs_termination
                    (session [Silence raw_partial]) (child [Silence raw_partial])
                    "sleep 5" 1 ticks eq_refl eq_refl)
                 raw_partial eq_refl).
  - exact (proj1 (proj2 (execute_timeout_vs_termination
                    (session [Closed "logout"]) (child [Closed "logout"])
                    "exit 7" 30 ticks eq_refl eq_refl))
                 "logout" eq_refl).
Defined.

(** A wait that runs into its deadline with [" partial\r\n"] in the buffer
    yields stdout ["partial"], which is not what had accumulated. *)
Lemma execute_timeout_stdout_not_raw :
  verdict_of (script (child [Silence raw_partial])) = TimedOut raw_partial
  /\ exists r self',
       execute "sleep 5" 1 ticks (session [Silence raw_partial]) = (Ok r, self')
       /\ stdout r = "partial"
       /\ stdout r <> raw_partial.
Proof.
  split; [reflexivity|].
  do 2 eexists. split; [reflexivity|]. split; [reflexivity|]. discriminate.
Qed.

Lemma execute_status_iff_exit_code_witness :
  (status (mkCommandResult error 7 "" "" "exit 7" 3 None) = success
   <-> exit_code (mkCommandResult error 7 "" "" "exit 7" 3 None) = 0)
  /\ (exit_code (mkCommandResult error 7 "" "" "exit 7" 3 None) <> 0 ->
      status (mkCommandResult error 7 "" "" "exit 7" 3 None) = error).
Proof.
  exact (execute_status_iff_exit_code
           (session [Prompt ""; Prompt "7"]) _ "exit 7" 30 ticks _ eq_refl).
Defined.

Lemma execute_unparseable_exit_code_witness :
  exists r self',
    execute "true" 30 ticks (session [Prompt "done"; Prompt "sh: oops"])
      = (Ok r, self')
    /\ exit_code r = 0
    /\ status r = success.
Proof.
  exact (execute_unparseable_exit_code
           (session [Prompt "done"; Prompt "sh: oops"])
           (child [Prompt "done"; Prompt "sh: oops"])
           "true" 30 ticks "done" "sh: oops" eq_refl eq_refl eq_refl eq_refl).
Defined.

Lemma execute_termination_discards_output_witness :
  (exists r self',
     execute "exit 7" 30 ticks (session [Closed raw_partial]) = (Ok r, self')
     /\ stdout r = "")
  /\ (exists r self',
     execute "sleep 5" 1 ticks (session [Silence raw_partial]) = (Ok r, self')
     /\ stdout r = Py.strip raw_partial).
Proof.
  split.
  - exact (proj1 (execute_termination_discards_output
                    (session [Closed raw_partial]) (child [Closed raw_partial])
                    "exit 7" 30 ticks eq_refl eq_refl)
                 raw_partial eq_refl).
  - exact (proj2 (execute_termination_discards_output
                    (session [Silence raw_partial]) (child [Silence raw_partial])
                    "sleep 5" 1 ticks eq_refl eq_refl)
                 raw_partial eq_refl).
Defined.

(** The scenarios of the specification. *)
Example scenario_echo_hi :
  fst (execute "echo hi" 30 ticks (session [Prompt ("hi" +:+ crlf); Prompt ("0" +:+ crlf)]))
  = Ok (mkCommandResult success 0 "hi" "" "echo hi" 3 None).
Proof. reflexivity. Qed.

Example scenario_exit_code_7 :
  fst (execute "(exit 7)" 30 ticks (session [Prompt ""; Prompt ("7" +:+ crlf)]))
  = Ok (mkCommandResult error 7 "" "" "(exit 7)" 3 None).
Proof. reflexivity. Qed.

Example scenario_sleep_times_out :
  fst (execute "sleep 5" 1 ticks (session [Silence ""]))
  = Ok (mkCommandResult error (-1) "" "Command timed out after 1s" "sleep 5" 3 None).
Proof. reflexivity. Qed.

End ExecuteRuns.

(** ** [get_cwd] and [terminate] *)

Section ShellLifecycle.
Import Pexpect Framer Models Shell Fixtures.

Lemma is_alive_running (self : ShellProcess) :
  is_alive self = true ->
  exists p, process self = Some p /\ isalive p = true.
Proof.
  unfold is_alive. destruct (process self) as [p|]; [eauto|discriminate].
Qed.

Lemma execute_not_running (self : ShellProcess) (cmd : string) (timeout : Z)
      (t : readings) :
  is_alive self = false ->
  execute cmd timeout t self = (Raise not_running, self).
Proof.
  unfold is_alive, execute.
  destruct (process self) as [p|]; [|reflexivity].
  intros ->. reflexivity.
Qed.

(** On a running session [execute] always returns a result; its stdout is
    already stripped and the recorded working directory is untouched. *)
Lemma execute_running (self : ShellProcess) (cmd : string) (timeout : Z)
      (t : readings) :
  is_alive self = true ->
  exists r self',
    execute cmd timeout t self = (Ok r, self')
    /\ Py.strip (stdout r) = stdout r
    /\ working_dir self' = working_dir self.
Proof.
  intros Ha. destruct (is_alive_running self Ha) as (p & Hproc & Halive).
  destruct (verdict_of (script p)) as [o tok|b|b|m] eqn:Hv.
  - destruct (execute_Matched self p cmd timeout t Hproc Halive _ _ Hv)
      as (p' & -> & _).
    do 2 eexists. split; [reflexivity|]. split; [apply strip_idem|reflexivity].
  - destruct (execute_TimedOut self p cmd timeout t Hproc Halive _ Hv)
      as (p' & -> & _).
    do 2 eexists. split; [reflexivity|]. split; [apply strip_idem|reflexivity].
  - destruct (execute_StreamClosed self p cmd timeout t Hproc Halive _ Hv)
      as (p' & -> & _).
    do 2 eexists. split; [reflexivity|]. split; reflexivity.
  - destruct (execute_Faulted self p cmd timeout t Hproc Halive _ Hv)
      as (p' & -> & _).
    do 2 eexists. split; [reflexivity|]. split; reflexivity.
Qed.

(** C9 (amended).  On a running session [get_cwd] never raises: it returns
    the stdout of its [execute("pwd", 5)] probe when the probe's status is
    "success" and the session's recorded working directory otherwise.  On
    a session that is not running the probe raises
    [RuntimeError("Shell process is not running")] and [get_cwd] lets it
    through. *)
Theorem get_cwd_fallback (self : ShellProcess) (t : readings) :
  (is_alive self = true ->
   exists r self',
     execute "pwd" 5 t self = (Ok r, self')
     /\ get_cwd t self =
          (Ok (match status r with
               | success => stdout r
               | error => working_dir self
               end), self'))
  /\ (is_alive self = false ->
      get_cwd t self = (Raise not_running, self)).
Proof.
  split; intros Ha; unfold get_cwd, bind.
  - destruct (execute_running self "pwd" 5 t Ha) as (r & self' & -> & Hs & Hw).
    exists r, self'. split; [reflexivity|].
    destruct (status r); unfold ret, gets; congruence.
  - now rewrite (execute_not_running self "pwd" 5 t Ha).
Qed.

Lemma get_cwd_fallback_witness :
  (exists r self',
     execute "pwd" 5 ticks (session [Prompt ("/tmp" +:+ crlf); Prompt "0"])
       = (Ok r, self')
     /\ get_cwd ticks (session [Prompt ("/tmp" +:+ crlf); Prompt "0"]) =
          (Ok (match status r with
               | success => stdout r
               | error => working_dir (session [Prompt ("/tmp" +:+ crlf); Prompt "0"])
               end), self'))
  /\ get_cwd ticks unstarted = (Raise not_running, unstarted).
Proof.
  split.
  - exact (proj1 (get_cwd_fallback
                    (session [Prompt ("/tmp" +:+ crlf); Prompt "0"]) ticks)
                 eq_refl).
  - exact (proj2 (get_cwd_fallback unstarted ticks) eq_refl).
Defined.

(** On a session that was never started [get_cwd] raises instead of
    returning the recorded working directory. *)
Lemma get_cwd_unstarted_raises :
  is_alive unstarted = false
  /\ fst (get_cwd ticks unstarted) = Raise not_running
  /\ fst (get_cwd ticks unstarted) <> Ok (working_dir unstarted).
Proof. repeat split. discriminate. Qed.

Example scenario_cd_then_get_cwd :
  fst (get_cwd ticks (session [Prompt ("/tmp" +:+ crlf); Prompt ("0" +:+ crlf)]))
  = Ok "/tmp".
Proof. reflexivity. Qed.

Example get_cwd_probe_times_out :
  fst (get_cwd ticks (session [Silence "/tm"])) = Ok "/workspace".
Proof. reflexivity. Qed.

Lemma _terminate_returns (p : spawn) : exists p', _terminate p = (Ok tt, p').
Proof.
  unfold _terminate, try_finally, try_except, bind, gets, ret, terminate_force.
  destruct (sendline "exit" p) as [[[]|e] p1].
  - destruct (expect_EOF 5 p1) as [[[]|e] p2];
      destruct (isalive p2); eauto.
  - destruct (isalive p1); eauto.
Qed.

Lemma terminate_not_alive (self : ShellProcess) :
  is_alive self = false -> terminate self = (Ok tt, self).
Proof.
  unfold is_alive, terminate.
  destruct (process self) as [p|]; [|reflexivity].
  intros ->. reflexivity.
Qed.

Lemma terminate_returns (self : ShellProcess) :
  exists self', terminate self = (Ok tt, self') /\ is_alive self' = false.
Proof.
  destruct (is_alive self) eqn:Ha.
  - destruct (is_alive_running self Ha) as (p & Hproc & Halive).
    unfold terminate. rewrite Hproc, Halive.
    unfold bind, with_process, modify. rewrite Hproc.
    destruct (_terminate_returns p) as [p' ->].
    eexists. split; reflexivity.
  - exists self. split; [now apply terminate_not_alive|exact Ha].
Qed.

(** C8.  Whatever state the session is in, two calls of [terminate] in a
    row both return without raising and the session is not alive after
    each of them; on a session that is not alive (dead or never started)
    [terminate] changes nothing. *)
Theorem terminate_twice (self : ShellProcess) :
  (exists s1 s2,
     terminate self = (Ok tt, s1) /\ is_alive s1 = false
     /\ terminate s1 = (Ok tt, s2) /\ is_alive s2 = false)
  /\ (is_alive self = false -> terminate self = (Ok tt, self)).
Proof.
  split; [|apply terminate_not_alive].
  destruct (terminate_returns self) as (s1 & H1 & Ha1).
  exists s1, s1. repeat split; try assumption.
  now apply terminate_not_alive.
Qed.

Lemma terminate_twice_witness :
  (exists s1 s2,
     terminate (session [Silence ""]) = (Ok tt, s1) /\ is_alive s1 = false
     /\ terminate s1 = (Ok tt, s2) /\ is_alive s2 = false)
  /\ terminate unstarted = (Ok tt, unstarted).
Proof.
  split.
  - exact (proj1 (terminate_twice (session [Silence ""]))).
  - exact (proj2 (terminate_twice unstarted) eq_refl).
Defined.

Example terminate_forced_kill :
  terminate (session [Prompt "x"; Silence ""])
  = (Ok tt, set_process None (session [Prompt "x"; Silence ""])).
Proof. reflexivity. Qed.

End ShellLifecycle.

(** ** The session registry: capacity *)

Section Capacity.
Import Config Shell Store Manager Fixtures.

Lemma create_session_full (self : SessionManager) (sid : string)
      (launch : res Pexpect.spawn) (t_init t_started : Z) :
  Z.of_nat (size (_sessions (store self))) >= max_sessions (session_config self) ->
  create_session sid launch t_init t_started self =
    (Raise (Exn RuntimeError
                ("Maximum sessions limit reached ("
                   +:+ Py.str_of_int (max_sessions (session_config self)) +:+ ")")),
     self).
Proof.
  intros Hn. destruct self as [sc shc sec [sess rel]]; simpl in *.
  unfold create_session, create_session_check, create_session_start,
    create_session_store, bind, with_store, count, create, modify, gets;
    simpl.
  destruct (Z.geb_spec (Z.of_nat (size sess)) (max_sessions sc)); [reflexivity|lia].
Qed.

Lemma create_session_room (self : SessionManager) (sid : string)
      (launch : res Pexpect.spawn) (t_init t_started : Z) :
  Z.of_nat (size (_sessions (store self))) < max_sessions (session_config self) ->
  create_session sid launch t_init t_started self =
    match start launch t_started
                (Shell.__init__ (Manager.shell_config self)
                                (working_directory (security_config self)) t_init) with
    | (Ok _, sh) =>
        (Ok (sid, sh), set_sessions (<[sid := sh]> (_sessions (store self))) self)
    | (Raise e, _) => (Raise e, self)
    end.
Proof.
  intros Hn. destruct self as [sc shc sec [sess rel]]; simpl in *.
  unfold create_session, create_session_check, create_session_start,
    create_session_store, bind, with_store, count, create, modify, gets;
    simpl.
  destruct (Z.geb_spec (Z.of_nat (size sess)) (max_sessions sc)); [lia|].
  unfold ret, raise; simpl.
  destruct (start launch t_started _) as [[[]|e] sh]; reflexivity.
Qed.

Lemma create_session_size (self : SessionManager) (sid : string)
      (launch : res Pexpect.spawn) (t_init t_started : Z) :
  Z.of_nat (size (_sessions (store self))) <= max_sessions (session_config self) ->
  Z.of_nat (size (_sessions (store
      (snd (create_session sid launch t_init t_started self)))))
  <= max_sessions (session_config self).
Proof.
  intros Hn.
  destruct (Z_lt_ge_dec (Z.of_nat (size (_sessions (store self))))
                        (max_sessions (session_config self))) as [Hlt|Hge].
  - rewrite (create_session_room _ _ _ _ _ Hlt).
    destruct (start launch t_started _) as [[[]|e] sh]; simpl; [|exact Hn].
    rewrite map_size_insert.
    destruct (_sessions (store self) !! sid); simpl; lia.
  - rewrite (create_session_full _ _ _ _ _ Hge). exact Hn.
Qed.

End Capacity.

(** ** The session registry: lookup, deletion and the sweep *)

Section RegistryFacts.
Import Config Shell Store Manager Fixtures.

Lemma set_store_id (self : SessionManager) : set_store (store self) self = self.
Proof. now destruct self. Qed.

Lemma delete_absent (st : SessionStore) (sid : string) :
  _sessions st !! sid = None -> Store.delete sid st = (Ok false, st).
Proof. intros H. unfold Store.delete. now rewrite H. Qed.

Lemma delete_present (st : SessionStore) (sid : string) (sh : ShellProcess) :
  _sessions st !! sid = Some sh ->
  exists sh',
    terminate sh = (Ok tt, sh') /\ is_alive sh' = false
    /\ Store.delete sid st =
         (Ok true, mkSessionStore (base.delete sid (_sessions st))
                                  ((sid, sh') :: released st)).
Proof.
  intros H. destruct (terminate_returns sh) as (sh' & Ht & Ha).
  exists sh'. repeat split; try assumption.
  unfold Store.delete. now rewrite H, Ht.
Qed.

Lemma get_session_absent (self : SessionManager) (sid : string) :
  _sessions (store self) !! sid = None ->
  get_session sid self = (Ok None, self).
Proof.
  intros H. unfold get_session, bind, with_store, get, gets, ret.
  now rewrite H, set_store_id.
Qed.

Lemma get_session_alive (self : SessionManager) (sid : string) (sh : ShellProcess) :
  _sessions (store self) !! sid = Some sh ->
  is_alive sh = true ->
  get_session sid self = (Ok (Some sh), self).
Proof.
  intros H Ha. unfold get_session, bind, with_store, get, gets, ret.
  now rewrite H, Ha, set_store_id.
Qed.

Lemma get_session_dead (self : SessionManager) (sid : string) (sh : ShellProcess) :
  _sessions (store self) !! sid = Some sh ->
  is_alive sh = false ->
  get_session sid self =
    (Ok None,
     set_store (mkSessionStore (base.delete sid (_sessions (store self)))
                               ((sid, sh) :: released (store self))) self).
Proof.
  intros H Ha. unfold get_session, bind, with_store, get, gets, ret.
  rewrite H, Ha, set_store_id. simpl.
  unfold Store.delete. rewrite H, (terminate_not_alive sh Ha). reflexivity.
Qed.

(** What [get_session] returns is the live object stored under the id, and
    returning it leaves the manager as it was. *)
Lemma get_session_found (self self' : SessionManager) (sid : string)
      (sh : ShellProcess) :
  get_session sid self = (Ok (Some sh), self') ->
  self' = self /\ _sessions (store self) !! sid = Some sh /\ is_alive sh = true.
Proof.
  destruct (_sessions (store self) !! sid) as [sh0|] eqn:H.
  - destruct (is_alive sh0) eqn:Ha.
    + rewrite (get_session_alive _ _ _ H Ha). intros [= <- <-]. auto.
    + rewrite (get_session_dead _ _ _ H Ha). discriminate.
  - rewrite (get_session_absent _ _ H). discriminate.
Qed.

(** One step of the sweep: either nothing changes, because the id is
    unknown or its session is alive and not idle for too long, or the
    session is terminated and its entry removed. *)
Lemma _cleanup_one_cases (clock : string -> Z) (self : SessionManager)
      (sid : string) :
  (_cleanup_one clock sid self = (Ok tt, self)
   /\ (_sessions (store self) !! sid = None
       \/ exists sh, _sessions (store self) !! sid = Some sh
            /\ idle_time sh (clock sid) <= timeout (session_config self)
            /\ is_alive sh = true))
  \/ (exists sh sh',
        _sessions (store self) !! sid = Some sh
        /\ (idle_time sh (clock sid) > timeout (session_config self)
            \/ is_alive sh = false)
        /\ terminate sh = (Ok tt, sh')
        /\ is_alive sh' = false
        /\ _cleanup_one clock sid self =
             (Ok tt,
              set_store (mkSessionStore (base.delete sid (_sessions (store self)))
                                        ((sid, sh') :: released (store self)))
                        self)).
Proof.
  unfold _cleanup_one, bind, with_store, get, gets, ret.
  destruct (_sessions (store self) !! sid) as [sh|] eqn:H;
    rewrite set_store_id; [|left; auto].
  destruct (delete_present _ _ _ H) as (sh' & Ht & Ha' & Hd).
  destruct (Z.gtb_spec (idle_time sh (clock sid)) (timeout (session_config self)))
    as [Hgt|Hle].
  - right. exists sh, sh'. rewrite Hd. repeat split; auto. left. lia.
  - destruct (is_alive sh) eqn:Ha; simpl.
    + left. split; [reflexivity|]. right. exists sh. auto.
    + right. exists sh, sh'. rewrite Hd. repeat split; auto.
Qed.

Lemma sweep_loop (clock : string -> Z) (l : list string) :
  forall self : SessionManager,
  exists self',
    for_each l (_cleanup_one clock) self = (Ok tt, self')
    /\ session_config self' = session_config self
    /\ (forall sid sh,
          _sessions (store self) !! sid = Some sh ->
          sid ∈ l ->
          idle_time sh (clock sid) > timeout (session_config self)
          \/ is_alive sh = false ->
          _sessions (store self') !! sid = None
          /\ exists sh', (sid, sh') ∈ released (store self')
                         /\ terminate sh = (Ok tt, sh')
                         /\ is_alive sh' = false)
    /\ (forall sid sh,
          _sessions (store self) !! sid = Some sh ->
          sid ∉ l
          \/ (idle_time sh (clock sid) <= timeout (session_config self)
              /\ is_alive sh = true) ->
          _sessions (store self') !! sid = Some sh)
    /\ (forall sid,
          _sessions (store self) !! sid = None ->
          _sessions (store self') !! sid = None)
    /\ (forall x, x ∈ released (store self) -> x ∈ released (store self'))
    /\ _sessions (store self') ⊆ _sessions (store self).
Proof.
  induction l as [|x l IH]; intros self.
  - exists self. simpl. unfold ret.
    split; [reflexivity|]. split; [reflexivity|].
    split; [|split; [|split; [|split]]]; auto.
    intros sid sh _ Hin. inversion Hin.
  - cbn [for_each]. unfold bind.
    destruct (_cleanup_one_cases clock self x)
      as [[-> Hkeep]|(shx & shx' & Hx & Hstale & Htx & Hax & ->)].
    + (* the step changes nothing *)
      destruct (IH self) as (self' & -> & Hc & HA & HB & HC & HD & HF).
      exists self'. split; [reflexivity|]. split; [exact Hc|].
      split; [|split; [|split; [|split]]]; auto.
      * intros sid sh Hs Hin Hst.
        destruct (decide (sid = x)) as [->|Hne].
        -- destruct Hkeep as [Hn|(sh0 & Hs0 & Hle & Hal)]; [congruence|].
           assert (sh0 = sh) as -> by congruence.
           destruct Hst as [Hgt|Hd]; [lia|congruence].
        -- apply (HA sid sh); auto.
           inversion Hin; subst; [congruence|assumption].
      * intros sid sh Hs [Hnin|Hfresh]; apply (HB sid sh); auto.
        left. intros Hl. apply Hnin. now right.
    + (* the step evicts [x] *)
      match goal with
      | |- context [for_each l _ ?s] => destruct (IH s)
          as (self' & -> & Hc & HA & HB & HC & HD & HF); set (self1 := s) in *
      end.
      simpl in Hc, HA, HB, HC, HD, HF.
      exists self'. split; [reflexivity|]. split; [exact Hc|].
      split; [|split; [|split; [|split]]].
      * intros sid sh Hs Hin Hst.
        destruct (decide (sid = x)) as [->|Hne].
        -- assert (shx = sh) as -> by congruence.
           split; [apply HC; apply lookup_delete_eq|].
           exists shx'. split; [apply HD; left|]. auto.
        -- apply (HA sid sh); auto.
           ++ now rewrite lookup_delete_ne.
           ++ inversion Hin; subst; [congruence|assumption].
      * intros sid sh Hs Hor.
        destruct (decide (sid = x)) as [->|Hne].
        -- assert (shx = sh) as -> by congruence.
           destruct Hor as [Hnin|[Hle Hal]]; [exfalso; apply Hnin; now left|].
           destruct Hstale; [lia|congruence].
        -- apply (HB sid sh).
           ++ now rewrite lookup_delete_ne.
           ++ destruct Hor as [Hnin|Hfresh]; [left|now right].
              intros Hl. apply Hnin. now right.
      * intros sid Hs. apply HC.
        destruct (decide (sid = x)) as [->|Hne];
          [apply lookup_delete_eq|now rewrite lookup_delete_ne].
      * intros y Hy. apply HD. now right.
      * etransitivity; [exact HF|apply delete_subseteq].
Qed.

End RegistryFacts.

(** ** The sweep *)

Section Sweep.
Import Config Shell Store Manager Fixtures.

(** C7.  One run of the cleanup sweep returns normally.  Every session
    that was registered and whose idle time (taken when the sweep looks at
    it) exceeds the configured timeout, or which is not alive, is gone from
    the registry afterwards and has been terminated (it is among the
    released objects, in the state [terminate] left it in, not alive);
    every session that is alive with an idle time at or below the timeout
    is still registered, unchanged. *)
Theorem cleanup_evicts_idle_and_dead (clock : string -> Z) (self : SessionManager) :
  exists self',
    _cleanup_expired_sessions clock self = (Ok tt, self')
    /\ forall sid sh,
         _sessions (store self) !! sid = Some sh ->
         (idle_time sh (clock sid) > timeout (session_config self)
          \/ is_alive sh = false ->
          _sessions (store self') !! sid = None
          /\ exists sh', (sid, sh') ∈ released (store self')
                         /\ terminate sh = (Ok tt, sh')
                         /\ is_alive sh' = false)
         /\ (is_alive sh = true
             /\ idle_time sh (clock sid) <= timeout (session_config self) ->
             _sessions (store self') !! sid = Some sh).
Proof.
  unfold _cleanup_expired_sessions, bind, with_store, get_all_ids, gets.
  rewrite set_store_id.
  destruct (sweep_loop clock (map_to_list (_sessions (store self))).*1 self)
    as (self' & -> & _ & HA & HB & _).
  exists self'. split; [reflexivity|].
  intros sid sh Hs. split.
  - intros Hst. apply (HA sid sh Hs); [|exact Hst].
    apply list_elem_of_fmap. exists (sid, sh). split; [reflexivity|].
    now apply elem_of_map_to_list.
  - intros [Hal Hle]. apply (HB sid sh Hs). right. split; assumption.
Qed.

Lemma cleanup_evicts_idle_and_dead_witness :
  exists self',
    _cleanup_expired_sessions at_5000 three_sessions = (Ok tt, self')
    /\ _sessions (store self') !! "idle" = None
    /\ _sessions (store self') !! "dead" = None
    /\ _sessions (store self') !! "busy" = Some busy_session.
Proof.
  destruct (cleanup_evicts_idle_and_dead at_5000 three_sessions)
    as (self' & Hrun & H).
  exists self'. split; [exact Hrun|]. split; [|split].
  - apply (H "idle" idle_session eq_refl). left. reflexivity.
  - apply (H "dead" dead_session eq_refl). right. reflexivity.
  - apply (H "busy" busy_session eq_refl). split; [reflexivity|].
    vm_compute. discriminate.
Defined.

Example sweep_of_three :
  _sessions (store (snd (_cleanup_expired_sessions at_5000 three_sessions)))
  = {[ "busy" := busy_session ]}.
Proof. vm_compute. reflexivity. Qed.

End Sweep.

(** ** The registry never outgrows its capacity *)

Section CapacityInvariant.
Import Config Shell Store Manager Validator Registry Fixtures.

Lemma with_store_delete_shrinks (self : SessionManager) (sid : string) :
  shrinks self (snd (with_store (Store.delete sid) self)).
Proof.
  unfold shrinks.
  unfold with_store.
  destruct (_sessions (store self) !! sid) as [sh|] eqn:H.
  - destruct (delete_present _ _ _ H) as (sh' & _ & _ & ->). simpl.
    split; [reflexivity|]. apply map_subseteq_size, delete_subseteq.
  - rewrite (delete_absent _ _ H). cbn [snd]. rewrite set_store_id. auto.
Qed.

Lemma get_session_shrinks (self : SessionManager) (sid : string) :
  shrinks self (snd (get_session sid self)).
Proof.
  unfold shrinks.
  destruct (_sessions (store self) !! sid) as [sh|] eqn:H.
  - destruct (is_alive sh) eqn:Ha.
    + rewrite (get_session_alive _ _ _ H Ha). auto.
    + rewrite (get_session_dead _ _ _ H Ha). simpl.
      split; [reflexivity|]. apply map_subseteq_size, delete_subseteq.
  - rewrite (get_session_absent _ _ H). auto.
Qed.

Lemma cleanup_shrinks (self : SessionManager) (clock : string -> Z) :
  shrinks self (snd (_cleanup_expired_sessions clock self)).
Proof.
  unfold shrinks.
  unfold _cleanup_expired_sessions, bind, with_store, get_all_ids, gets.
  rewrite set_store_id.
  destruct (sweep_loop clock (map_to_list (_sessions (store self))).*1 self)
    as (self' & -> & Hc & _ & _ & _ & _ & HF).
  simpl. split; [exact Hc|]. now apply map_subseteq_size.
Qed.

Lemma handle_execute_command_shrinks
      (self : SessionManager) (sid cmd : string) (tmo : Z)
      (v : SecurityValidator) (t : readings) :
  shrinks self (snd (Tools.handle_execute_command sid cmd tmo v t self)).
Proof.
  unfold shrinks.
  unfold Tools.handle_execute_command.
  destruct (validate_command v cmd) as [[]|e].
  - unfold bind.
    destruct (_sessions (store self) !! sid) as [sh|] eqn:H.
    + destruct (is_alive sh) eqn:Ha.
      * rewrite (get_session_alive _ _ _ H Ha).
        unfold Tools.execute_in_store.
        destruct (execute cmd tmo t sh) as [[r|e] sh']; simpl;
          (split; [reflexivity|]);
          rewrite map_size_insert, H; reflexivity.
      * rewrite (get_session_dead _ _ _ H Ha). simpl.
        split; [reflexivity|]. apply map_subseteq_size, delete_subseteq.
    + rewrite (get_session_absent _ _ H). auto.
  - destruct (kind e); auto.
Qed.

Lemma create_session_config (self : SessionManager) (sid : string)
      (launch : res Pexpect.spawn) (t_init t_started : Z) :
  session_config (snd (create_session sid launch t_init t_started self))
  = session_config self.
Proof.
  destruct (Z_lt_ge_dec (Z.of_nat (size (_sessions (store self))))
                        (max_sessions (session_config self))) as [Hlt|Hge].
  - rewrite (create_session_room _ _ _ _ _ Hlt).
    destruct (start launch t_started _) as [[[]|e] sh]; reflexivity.
  - now rewrite (create_session_full _ _ _ _ _ Hge).
Qed.

Lemma run_call_within_capacity (c : call) (self : SessionManager) :
  Z.of_nat (size (_sessions (store self))) <= max_sessions (session_config self) ->
  session_config (run_call c self) = session_config self
  /\ Z.of_nat (size (_sessions (store (run_call c self))))
     <= max_sessions (session_config self).
Proof.
  intros Hn.
  assert (forall self', shrinks self self' ->
            session_config self' = session_config self
            /\ Z.of_nat (size (_sessions (store self')))
               <= max_sessions (session_config self)) as Hsh
    by (intros self' [Hc Hs]; split; [exact Hc|lia]).
  destruct c as [sid launch t1 t2|sid|sid|clock|sid cmd tmo v t]; simpl.
  - split; [apply create_session_config|now apply create_session_size].
  - apply Hsh, get_session_shrinks.
  - apply Hsh, with_store_delete_shrinks.
  - apply Hsh, cleanup_shrinks.
  - apply Hsh, handle_execute_command_shrinks.
Qed.

Lemma run_calls_within_capacity (cs : list call) :
  forall self : SessionManager,
    Z.of_nat (size (_sessions (store self))) <= max_sessions (session_config self) ->
    Z.of_nat (size (_sessions (store (run_calls cs self))))
    <= max_sessions (session_config self).
Proof.
  induction cs as [|c cs IH]; intros self Hn; [exact Hn|].
  destruct (run_call_within_capacity c self Hn) as [Hc Hs].
  cbn [run_calls fold_left]. fold (run_calls cs (run_call c self)).
  rewrite <- Hc. apply IH. now rewrite Hc.
Qed.

End CapacityInvariant.

(** ** Claims about the registry *)

Section RegistryClaims.
Import Config Models Shell Store Manager Validator Registry Tools Fixtures.




(** The capacity check and the insertion are separate steps of
    [create_session]: when two calls overlap, both pass the check, and a
    registry configured for one session ends up holding two. *)
Example overlapping_creates_exceed_capacity :
  exists self',
    two_overlapping_creates (manager 1) = (Ok tt, self')
    /\ max_sessions (session_config self') = 1
    /\ size (_sessions (store self')) = 2%nat.
Proof. eexists. vm_compute. repeat split. Qed.

Example two_creates_then_full :
  let m2 := run_calls [CreateSession "a" launch_ok 0 1;
                       CreateSession "b" launch_ok 2 3] (manager 2) in
  size (_sessions (store m2)) = 2%nat
  /\ fst (create_session "c" launch_ok 4 5 m2)
     = Raise (Exn RuntimeError "Maximum sessions limit reached (2)").
Proof. vm_compute. split; reflexivity. Qed.

End RegistryClaims.

(** ** Claims about the tool entry points *)

Section ToolClaims.
Import Pexpect Config Models Shell Store Manager Validator Registry Tools Fixtures.

Lemma check_blocklist_raises (ps : list Pattern) (cmd : string) (e : exn) :
  check_blocklist ps cmd = Raise e -> kind e = ValueError.
Proof.
  induction ps as [|p ps IH]; simpl; [discriminate|].
  destruct (search p cmd); [intros [= <-]; reflexivity|exact IH].
Qed.

(** [validate_command] raises nothing but [ValueError]. *)
Lemma validate_command_raises (v : SecurityValidator) (cmd : string) (e : exn) :
  validate_command v cmd = Raise e -> kind e = ValueError.
Proof.
  unfold validate_command.
  destruct (negb (enabled (config v))); [discriminate|].
  destruct (Py.strip cmd) as [|c s]; [intros [= <-]; reflexivity|].
  destruct (allowed_executables (config v)) as [|a l];
    [apply check_blocklist_raises|].
  destruct (negb _); [intros [= <-]; reflexivity|apply check_blocklist_raises].
Qed.

Lemma not_found_message_distinct (tmo : Z) :
  "Session not found or expired" <> timeout_message tmo
  /\ "Session not found or expired" <> "Shell process terminated".
Proof.
  split; [|discriminate].
  destruct (timeout_message_head tmo) as [rest ->]. discriminate.
Qed.

(** C5 (amended).  [get_session] returns none for an id that is not in the
    store; for an id whose shell process is not alive it deletes the entry
    and returns none; whatever it returns as found is alive.  For a
    command the validator accepts, [handle_execute_command] on an absent
    or dead id returns the error result whose stderr is
    "Session not found or expired", a message no command-level outcome of
    [execute] (timeout, termination) uses. *)
Theorem get_session_never_returns_dead (self : SessionManager) (sid : string) :
  (_sessions (store self) !! sid = None ->
   get_session sid self = (Ok None, self))
  /\ (forall sh,
        _sessions (store self) !! sid = Some sh ->
        is_alive sh = false ->
        exists self',
          get_session sid self = (Ok None, self')
          /\ _sessions (store self') = base.delete sid (_sessions (store self)))
  /\ (forall sh self',
        get_session sid self = (Ok (Some sh), self') ->
        _sessions (store self) !! sid = Some sh /\ is_alive sh = true)
  /\ (forall v cmd tmo t,
        validate_command v cmd = Ok tt ->
        _sessions (store self) !! sid = None
        \/ (exists sh, _sessions (store self) !! sid = Some sh
                       /\ is_alive sh = false) ->
        exists self',
          handle_execute_command sid cmd tmo v t self =
            (Ok (error_dict "Session not found or expired" cmd), self')
          /\ dict_get (error_dict "Session not found or expired" cmd) "stderr"
             = Some (VStr "Session not found or expired")
          /\ _sessions (store self') !! sid = None
          /\ "Session not found or expired" <> timeout_message tmo
          /\ "Session not found or expired" <> "Shell process terminated").
Proof.
  split; [apply get_session_absent|]. split; [|split].
  - intros sh H Ha. rewrite (get_session_dead _ _ _ H Ha).
    eexists. split; reflexivity.
  - intros sh self' H. destruct (get_session_found _ _ _ _ H) as (_ & ? & ?).
    auto.
  - intros v cmd tmo t Hv Hgone.
    unfold handle_execute_command, bind. rewrite Hv.
    destruct (not_found_message_distinct tmo) as [Hd1 Hd2].
    destruct Hgone as [H|(sh & H & Ha)].
    + rewrite (get_session_absent _ _ H).
      eexists. split; [reflexivity|]. repeat split; assumption.
    + rewrite (get_session_dead _ _ _ H Ha).
      eexists. split; [reflexivity|]. repeat split; try assumption.
      simpl. apply lookup_delete_eq.
Qed.

Lemma get_session_never_returns_dead_witness :
  get_session "nope" three_sessions = (Ok None, three_sessions)
  /\ (exists self',
        get_session "dead" three_sessions = (Ok None, self')
        /\ _sessions (store self')
           = base.delete "dead" (_sessions (store three_sessions)))
  /\ (_sessions (store three_sessions) !! "busy" = Some busy_session
      /\ is_alive busy_session = true)
  /\ (exists self',
        handle_execute_command "dead" "ls" 30 strict ticks three_sessions =
          (Ok (error_dict "Session not found or expired" "ls"), self')
        /\ dict_get (error_dict "Session not found or expired" "ls") "stderr"
           = Some (VStr "Session not found or expired")
        /\ _sessions (store self') !! "dead" = None
        /\ "Session not found or expired" <> timeout_message 30
        /\ "Session not found or expired" <> "Shell process terminated").
Proof.
  split; [|split; [|split]].
  - exact (proj1 (get_session_never_returns_dead three_sessions "nope") eq_refl).
  - exact (proj1 (proj2 (get_session_never_returns_dead three_sessions "dead"))
                 dead_session eq_refl eq_refl).
  - exact (proj1 (proj2 (proj2 (get_session_never_returns_dead
                                  three_sessions "busy")))
                 busy_session three_sessions eq_refl).
  - exact (proj2 (proj2 (proj2 (get_session_never_returns_dead
                                  three_sessions "dead")))
                 strict "ls" 30 ticks eq_refl
                 (or_intror (ex_intro _ dead_session (conj eq_refl eq_refl)))).
Defined.

(** On an id that is not in the store, a command the validator rejects
    gets the validation failure, not "Session not found or expired". *)
Lemma rejected_command_on_unknown_session :
  _sessions (store (manager 1)) !! "nope" = None
  /\ handle_execute_command "nope" "" 30 strict ticks (manager 1) =
       (Ok (error_dict "Security validation failed: Empty command" ""),
        manager 1)
  /\ dict_get (error_dict "Security validation failed: Empty command" "") "stderr"
     <> Some (VStr "Session not found or expired").
Proof.
  split; [reflexivity|]. split; [reflexivity|]. discriminate.
Qed.

(** C4.  When the validator rejects a command, both [execute_command]
    entry points return, without raising, the result with status "error",
    exit code -1, empty stdout and the stderr
    "Security validation failed: <reason>", and they leave the session
    manager, respectively the server state, exactly as it was: no session
    is looked up, spawned or written to. *)
Theorem rejected_command_is_reported
        (v : SecurityValidator) (cmd : string) (e : exn)
        (sid : string) (tmo : Z) (t : readings) (self : SessionManager)
        (st : Server.state) (launch : res Pexpect.spawn) (t_init t_started : Z) :
  validate_command v cmd = Raise e ->
  Server.security_validator st = v ->
  handle_execute_command sid cmd tmo v t self =
    (Ok (error_dict ("Security validation failed: " +:+ str_of_exn e) cmd), self)
  /\ Server.execute_command cmd tmo launch t_init t_started t st =
    (Ok (error_dict ("Security validation failed: " +:+ str_of_exn e) cmd), st)
  /\ dict_get (error_dict ("Security validation failed: " +:+ str_of_exn e) cmd)
              "status" = Some (VStr "error")
  /\ dict_get (error_dict ("Security validation failed: " +:+ str_of_exn e) cmd)
              "exit_code" = Some (VInt (-1))
  /\ dict_get (error_dict ("Security validation failed: " +:+ str_of_exn e) cmd)
              "stdout" = Some (VStr "")
  /\ dict_get (error_dict ("Security validation failed: " +:+ str_of_exn e) cmd)
              "stderr"
     = Some (VStr ("Security validation failed: " +:+ str_of_exn e)).
Proof.
  intros Hv Hst. pose proof (validate_command_raises _ _ _ Hv) as Hk.
  unfold handle_execute_command, Server.execute_command.
  rewrite Hst, Hv, Hk. repeat split.
Qed.

Lemma rejected_command_is_reported_witness :
  handle_execute_command "busy" "" 30 strict ticks three_sessions =
    (Ok (error_dict "Security validation failed: Empty command" ""),
     three_sessions)
  /\ Server.execute_command "" 30 launch_ok 0 1 ticks server0 =
    (Ok (error_dict "Security validation failed: Empty command" ""), server0)
  /\ dict_get (error_dict "Security validation failed: Empty command" "")
              "status" = Some (VStr "error")
  /\ dict_get (error_dict "Security validation failed: Empty command" "")
              "exit_code" = Some (VInt (-1))
  /\ dict_get (error_dict "Security validation failed: Empty command" "")
              "stdout" = Some (VStr "")
  /\ dict_get (error_dict "Security validation failed: Empty command" "")
              "stderr"
     = Some (VStr "Security validation failed: Empty command").
Proof.
  exact (rejected_command_is_reported
           strict "" (Exn ValueError "Empty command") "busy" 30 ticks
           three_sessions server0 launch_ok 0 1 eq_refl eq_refl).
Defined.

Example validate_not_in_allowlist :
  validate_command guarded "  cat /etc/passwd" =
    Raise (Exn ValueError
               "Command 'cat' is not in the allowlist. Allowed: ls, rm").
Proof. vm_compute. reflexivity. Qed.

Example validate_blocked_pattern :
  validate_command guarded "rm -rf /" =
    Raise (Exn ValueError "Command matches blocked pattern: rm -rf").
Proof. vm_compute. reflexivity. Qed.

Example validate_accepts : validate_command guarded "ls -l" = Ok tt.
Proof. vm_compute. reflexivity. Qed.

Example validate_disabled : validate_command lenient "" = Ok tt.
Proof. vm_compute. reflexivity. Qed.

Example execute_through_the_tool :
  fst (handle_execute_command "busy" "echo hi" 30 strict ticks
         (manager_with 10 [("busy", session [Prompt "hi"; Prompt "0"])]))
  = Ok (model_dump (mkCommandResult success 0 "hi" "" "echo hi" 3 None)).
Proof. vm_compute. reflexivity. Qed.

Example server_spawns_global_shell :
  fst (Server.execute_command "echo hi" 30
         (Ok (child [Prompt ""; Prompt "hi"; Prompt "0"])) 0 1 ticks server0)
  = Ok (model_dump (mkCommandResult success 0 "hi" "" "echo hi" 3 None)).
Proof. vm_compute. reflexivity. Qed.

End ToolClaims.

(** * Further properties of the code *)

(** ** [ShellProcess]: start, reset, what [execute] reports and writes *)

Section ShellMore.
Import Pexpect Framer Models Shell Fixtures.

(** X1.  [start] succeeds exactly when the shell binary is launched, the
    child is alive and its first wait shows the prompt; the session is then
    alive with an empty [before] buffer, its last activity is the reading
    taken by [start] and its working directory is unchanged.  In every
    other case [start] raises and leaves the session object as it was. *)
Theorem start_outcome (launch : res spawn) (now : Z)
        (self self' : ShellProcess) (r : res unit) :
  start launch now self = (r, self') ->
  (r = Ok tt <->
   exists proc o rest,
     launch = Ok proc /\ isalive proc = true
     /\ next_wait (script proc) = (Prompt o, rest))
  /\ (r = Ok tt ->
      is_alive self' = true
      /\ last_activity self' = now
      /\ working_dir self' = working_dir self
      /\ exists p, process self' = Some p /\ before p = Some "")
  /\ (forall e, r = Raise e -> self' = self).
Proof.
  unfold start, _spawn_shell, bind, sendline, expect.
  destruct launch as [[al bf sc sn]|e]; simpl.
  - destruct al; simpl.
    + destruct (next_wait sc) as [[o|o|o|m] rest] eqn:Hw; simpl;
        intros [= <- <-]; (split; [split|split]);
        try discriminate; try (intros; congruence).
      * intros _. exists (Spawn true bf sc sn), o, rest. auto.
      * intros _. repeat split. eexists. split; reflexivity.
      * intros (proc & o' & rest' & [= <-] & _ & Hp). simpl in Hp. congruence.
      * intros (proc & o' & rest' & [= <-] & _ & Hp). simpl in Hp. congruence.
      * intros (proc & o' & rest' & [= <-] & _ & Hp). simpl in Hp. congruence.
    + intros [= <- <-]. split; [split|split]; try discriminate;
        try (intros; congruence).
      intros (proc & o' & rest' & [= <-] & Ha & _). discriminate.
  - intros [= <- <-]. split; [split|split]; try discriminate;
      try (intros; congruence).
    intros (proc & o' & rest' & Hl & _). discriminate.
Qed.

Lemma start_outcome_witness :
  is_alive (set_last_activity 1 (set_process (Some started_child) unstarted)) = true
  /\ last_activity (set_last_activity 1 (set_process (Some started_child) unstarted)) = 1
  /\ working_dir (set_last_activity 1 (set_process (Some started_child) unstarted))
     = working_dir unstarted
  /\ exists p,
       process (set_last_activity 1 (set_process (Some started_child) unstarted))
         = Some p
       /\ before p = Some "".
Proof.
  exact (proj1 (proj2 (start_outcome launch_ok 1 unstarted _ (Ok tt) eq_refl))
               eq_refl).
Defined.

Lemma start_returns_alive (launch : res spawn) (now : Z)
      (self self' : ShellProcess) :
  start launch now self = (Ok tt, self') ->
  is_alive self' = true /\ last_activity self' = now.
Proof.
  unfold start, _spawn_shell, bind, sendline, expect.
  destruct launch as [[al bf sc sn]|e]; simpl; [|discriminate].
  destruct al; simpl; [|discriminate].
  destruct (next_wait sc) as [[o|o|o|m] rest]; simpl; try discriminate.
  intros [= <-]. split; reflexivity.
Qed.

Lemma start_raises_unchanged (launch : res spawn) (now : Z)
      (self self' : ShellProcess) (e : exn) :
  start launch now self = (Raise e, self') -> self' = self.
Proof.
  unfold start. destruct (_spawn_shell self launch); [discriminate|].
  now intros [= _ <-].
Qed.

(** X3.  [execute] raises in one situation only: on a session that is not
    running it raises [RuntimeError("Shell process is not running")]
    without touching the session; on a running session it always returns a
    result, whatever the child does. *)
Theorem execute_raises_only_when_not_running
        (self : ShellProcess) (cmd : string) (tmo : Z) (t : readings) :
  (is_alive self = false /\ execute cmd tmo t self = (Raise not_running, self))
  \/ (is_alive self = true
      /\ exists r self', execute cmd tmo t self = (Ok r, self')).
Proof.
  destruct (is_alive self) eqn:Ha.
  - right. split; [reflexivity|].
    destruct (execute_running self cmd tmo t Ha) as (r & self' & H & _).
    eauto.
  - left. split; [reflexivity|]. now apply execute_not_running.
Qed.

(** X4.  Every result [execute] returns echoes the command it was given,
    carries no security information, reports as execution time the
    difference of the two clock readings, and has a stdout without leading
    or trailing whitespace. *)
Theorem execute_result_shape
        (self self' : ShellProcess) (cmd : string) (tmo : Z) (t : readings)
        (r : CommandResult) :
  execute cmd tmo t self = (Ok r, self') ->
  command r = cmd
  /\ security_info r = None
  /\ execution_time r = t_done t - t_start t
  /\ Py.lstrip (stdout r) = stdout r
  /\ Py.rstrip (stdout r) = stdout r.
Proof.
  unfold execute.
  destruct (process self) as [p|]; [|discriminate].
  destruct (negb (isalive p)); [discriminate|].
  destruct (with_process _ _ self) as [[[[out err] code]|e] s'];
    intros [= <- _]; simpl; repeat split.
  - unfold Py.strip.
    destruct (lstrip_head out) as [->|(c & u & -> & Hc)]; [reflexivity|].
    destruct (rstrip_head c u Hc) as [u' ->]. now apply lstrip_nonspace.
  - apply rstrip_idem.
Qed.

Lemma execute_result_shape_witness :
  command (mkCommandResult success 0 "hi" "" "echo hi" 3 None) = "echo hi"
  /\ security_info (mkCommandResult success 0 "hi" "" "echo hi" 3 None) = None
  /\ execution_time (mkCommandResult success 0 "hi" "" "echo hi" 3 None)
     = t_done ticks - t_start ticks
  /\ Py.lstrip (stdout (mkCommandResult success 0 "hi" "" "echo hi" 3 None))
     = stdout (mkCommandResult success 0 "hi" "" "echo hi" 3 None)
  /\ Py.rstrip (stdout (mkCommandResult success 0 "hi" "" "echo hi" 3 None))
     = stdout (mkCommandResult success 0 "hi" "" "echo hi" 3 None).
Proof.
  exact (execute_result_shape
           (session [Prompt (" hi" +:+ crlf); Prompt "0"]) _ "echo hi" 30 ticks
           _ eq_refl).
Defined.

End ShellMore.

Section ShellReports.
Import Pexpect Framer Models Shell Fixtures.

(** X5.  A non-empty stderr always comes with exit code -1 and status
    "error", and a command whose two waits both saw the marker has an
    empty stderr: whatever the command wrote to its own error stream is
    part of stdout, stderr is reserved for timeouts, termination and
    internal failures. *)
Theorem execute_stderr_means_failure
        (self self' : ShellProcess) (p : spawn) (cmd : string) (tmo : Z)
        (t : readings) (r : CommandResult) :
  process self = Some p ->
  execute cmd tmo t self = (Ok r, self') ->
  (stderr r <> "" -> exit_code r = -1 /\ status r = error)
  /\ (forall output token,
        verdict_of (script p) = Matched output token -> stderr r = "").
Proof.
  intros Hproc Hex.
  assert (isalive p = true) as Halive.
  { unfold execute in Hex. rewrite Hproc in Hex.
    destruct (isalive p); [reflexivity|discriminate]. }
  destruct (verdict_of (script p)) as [o tok|b|b|m] eqn:Hv.
  - destruct (execute_Matched self p cmd tmo t Hproc Halive _ _ Hv)
      as (p' & He & _).
    rewrite He in Hex. injection Hex as <- _. simpl.
    split; [congruence|reflexivity].
  - destruct (execute_TimedOut self p cmd tmo t Hproc Halive _ Hv)
      as (p' & He & _).
    rewrite He in Hex. injection Hex as <- _. simpl.
    split; [auto|discriminate].
  - destruct (execute_StreamClosed self p cmd tmo t Hproc Halive _ Hv)
      as (p' & He & _).
    rewrite He in Hex. injection Hex as <- _. simpl.
    split; [auto|discriminate].
  - destruct (execute_Faulted self p cmd tmo t Hproc Halive _ Hv)
      as (p' & He & _).
    rewrite He in Hex. injection Hex as <- _. simpl.
    split; [auto|discriminate].
Qed.

Lemma execute_stderr_means_failure_witness :
  (stderr (mkCommandResult error (-1) "" "Shell process terminated" "exit" 3 None)
     <> "" ->
   exit_code (mkCommandResult error (-1) "" "Shell process terminated" "exit" 3 None)
     = -1
   /\ status (mkCommandResult error (-1) "" "Shell process terminated" "exit" 3 None)
      = error)
  /\ (forall output token,
        verdict_of (script (child [Closed "bye"])) = Matched output token ->
        stderr (mkCommandResult error (-1) "" "Shell process terminated" "exit" 3 None)
          = "").
Proof.
  exact (execute_stderr_means_failure
           (session [Closed "bye"]) _ (child [Closed "bye"]) "exit" 30 ticks _
           eq_refl eq_refl).
Defined.

(** X6.  [execute] records the activity of every command that ran into a
    match, a timeout or the end of the stream: the session's last activity
    becomes the reading taken on completion, so its idle time restarts at
    zero.  Only when the call fails with another exception is the last
    activity left as it was. *)
Theorem execute_touches_last_activity
        (self self' : ShellProcess) (p : spawn) (cmd : string) (tmo : Z)
        (t : readings) (r : CommandResult) :
  process self = Some p ->
  execute cmd tmo t self = (Ok r, self') ->
  match verdict_of (script p) with
  | Faulted _ => last_activity self' = last_activity self
  | _ => last_activity self' = t_touch t /\ idle_time self' (t_touch t) = 0
  end.
Proof.
  intros Hproc Hex.
  assert (isalive p = true) as Halive.
  { unfold execute in Hex. rewrite Hproc in Hex.
    destruct (isalive p); [reflexivity|discriminate]. }
  destruct (verdict_of (script p)) as [o tok|b|b|m] eqn:Hv.
  - destruct (execute_Matched self p cmd tmo t Hproc Halive _ _ Hv)
      as (p' & He & _).
    rewrite He in Hex. injection Hex as _ <-. unfold idle_time. simpl.
    split; [reflexivity|lia].
  - destruct (execute_TimedOut self p cmd tmo t Hproc Halive _ Hv)
      as (p' & He & _).
    rewrite He in Hex. injection Hex as _ <-. unfold idle_time. simpl.
    split; [reflexivity|lia].
  - destruct (execute_StreamClosed self p cmd tmo t Hproc Halive _ Hv)
      as (p' & He & _).
    rewrite He in Hex. injection Hex as _ <-. unfold idle_time. simpl.
    split; [reflexivity|lia].
  - destruct (execute_Faulted self p cmd tmo t Hproc Halive _ Hv)
      as (p' & He & _).
    rewrite He in Hex. injection Hex as _ <-. reflexivity.
Qed.

Lemma execute_touches_last_activity_witness :
  (last_activity (snd (execute "sleep 5" 1 ticks (session [Silence ""]))) = 104
   /\ idle_time (snd (execute "sleep 5" 1 ticks (session [Silence ""]))) 104 = 0)
  /\ last_activity (snd (execute "ls" 1 ticks (session [Fault "I/O error"])))
     = last_activity (session [Fault "I/O error"]).
Proof.
  split.
  - exact (execute_touches_last_activity
             (session [Silence ""]) _ (child [Silence ""]) "sleep 5" 1 ticks _
             eq_refl eq_refl).
  - exact (execute_touches_last_activity
             (session [Fault "I/O error"]) _ (child [Fault "I/O error"])
             "ls" 1 ticks _ eq_refl eq_refl).
Defined.

(** X7.  [execute] writes the command line to the child exactly once and
    unchanged, and writes the exit-status probe [echo $?] after it only
    when the first wait saw the prompt marker; nothing else is written. *)
Theorem execute_writes
        (self self' : ShellProcess) (p : spawn) (cmd : string) (tmo : Z)
        (t : readings) (r : CommandResult) :
  process self = Some p ->
  execute cmd tmo t self = (Ok r, self') ->
  exists p',
    process self' = Some p'
    /\ sent p' = match fst (next_wait (script p)) with
                 | Prompt _ => "echo $?" :: cmd :: sent p
                 | _ => cmd :: sent p
                 end.
Proof.
  intros Hproc. unfold execute, with_process, _execute_command, bind,
    try_except, gets, ret, raise, sendline, expect, isalive.
  rewrite Hproc. destruct p as [al bf sc sn]; simpl.
  destruct al; simpl; [|discriminate].
  destruct (next_wait sc) as [[o|o|o|m] rest]; simpl.
  - destruct (next_wait rest) as [[o2|o2|o2|m2] rest2]; simpl;
      intros [= _ <-]; eexists; split; reflexivity.
  - intros [= _ <-]; eexists; split; reflexivity.
  - intros [= _ <-]; eexists; split; reflexivity.
  - intros [= _ <-]; eexists; split; reflexivity.
Qed.

Lemma execute_writes_witness :
  (exists p',
     process (snd (execute "ls" 30 ticks (session [Prompt "a"; Prompt "0"])))
       = Some p'
     /\ sent p' = ["echo $?"; "ls"])
  /\ (exists p',
     process (snd (execute "sleep 5" 1 ticks (session [Silence ""]))) = Some p'
     /\ sent p' = ["sleep 5"]).
Proof.
  split.
  - exact (execute_writes (session [Prompt "a"; Prompt "0"]) _
                          (child [Prompt "a"; Prompt "0"]) "ls" 30 ticks _
                          eq_refl eq_refl).
  - exact (execute_writes (session [Silence ""]) _ (child [Silence ""])
                          "sleep 5" 1 ticks _ eq_refl eq_refl).
Defined.

(** X8.  When both waits see the marker and the probe's output is an
    integer n, the result has exit code n, the command's output stripped
    of surrounding whitespace as stdout and an empty stderr, and the
    session stays alive. *)
Theorem execute_reports_exit_code
        (self : ShellProcess) (p : spawn) (cmd : string) (tmo : Z)
        (t : readings) (output token : string) (n : Z) :
  process self = Some p ->
  isalive p = true ->
  verdict_of (script p) = Matched output token ->
  Py.int_of_str (Py.strip token) = Some n ->
  exists r self',
    execute cmd tmo t self = (Ok r, self')
    /\ exit_code r = n
    /\ stdout r = Py.strip output
    /\ stderr r = ""
    /\ is_alive self' = true.
Proof.
  intros Hproc Halive Hv Hint.
  destruct (execute_Matched self p cmd tmo t Hproc Halive _ _ Hv)
    as (p' & -> & Hp').
  rewrite Hint. do 2 eexists. repeat split. exact Hp'.
Qed.

Lemma execute_reports_exit_code_witness :
  exists r self',
    execute "(exit 7)" 30 ticks (session [Prompt crlf; Prompt ("7" +:+ crlf)])
      = (Ok r, self')
    /\ exit_code r = 7
    /\ stdout r = Py.strip crlf
    /\ stderr r = ""
    /\ is_alive self' = true.
Proof.
  exact (execute_reports_exit_code
           (session [Prompt crlf; Prompt ("7" +:+ crlf)])
           (child [Prompt crlf; Prompt ("7" +:+ crlf)])
           "(exit 7)" 30 ticks crlf ("7" +:+ crlf) 7
           eq_refl eq_refl eq_refl eq_refl).
Defined.







(** A reset whose new shell cannot be launched: the old child has been
    told to exit and killed, and the session holds no child. *)
Example reset_failure_terminates_the_old_child :
  fst (reset launch_fails 7 (session [Prompt "busy"; Silence ""]))
  = Raise (Exn ExceptionPexpect
               "The command was not found or was not executable: /bin/nosuch.")
  /\ process (snd (reset launch_fails 7 (session [Prompt "busy"; Silence ""])))
     = None
  /\ isalive (snd (_terminate (child [Prompt "busy"; Silence ""]))) = false
  /\ sent (snd (_terminate (child [Prompt "busy"; Silence ""]))) = ["exit"].
Proof. vm_compute. repeat split. Qed.


End ShellReports.

(** ** [SessionStore] *)

Section StoreMore.
Import Config Shell Store Manager Fixtures.

(** X10.  [create] followed by [get] returns the stored session, and
    sessions under other ids are not affected.  Under an id that is taken
    [create] replaces the entry without terminating or releasing the
    session that was there, and the count does not change; under a new id
    the count grows by one. *)
Theorem store_create_then_get (st : SessionStore) (sid : string) (sh : ShellProcess) :
  exists st',
    create sid sh st = (Ok tt, st')
    /\ get sid st' = (Ok (Some sh), st')
    /\ (forall sid', sid' <> sid -> fst (get sid' st') = fst (get sid' st))
    /\ released st' = released st
    /\ fst (count st') =
       Ok (match _sessions st !! sid with
           | Some _ => Z.of_nat (size (_sessions st))
           | None => Z.of_nat (size (_sessions st)) + 1
           end).
Proof.
  eexists. split; [reflexivity|]. unfold get, count, gets; simpl.
  split; [now rewrite lookup_insert_eq|].
  split; [intros sid' Hne; now rewrite lookup_insert_ne|].
  split; [reflexivity|].
  rewrite map_size_insert. destruct (_sessions st !! sid); simpl; f_equal; lia.
Qed.

(** X11.  [delete] answers whether the id was registered.  For an unknown
    id it answers false and changes nothing.  For a registered id it
    terminates the session (the released object is not alive), removes the
    entry, leaves the other entries alone, lowers the count by one, and a
    second [delete] of the same id answers false and changes nothing. *)
Theorem store_delete_removes (st : SessionStore) (sid : string) :
  (_sessions st !! sid = None -> Store.delete sid st = (Ok false, st))
  /\ (forall sh,
        _sessions st !! sid = Some sh ->
        exists sh' st',
          Store.delete sid st = (Ok true, st')
          /\ terminate sh = (Ok tt, sh')
          /\ is_alive sh' = false
          /\ released st' = (sid, sh') :: released st
          /\ get sid st' = (Ok None, st')
          /\ (forall sid', sid' <> sid ->
                _sessions st' !! sid' = _sessions st !! sid')
          /\ fst (count st') = Ok (Z.of_nat (size (_sessions st)) - 1)
          /\ Store.delete sid st' = (Ok false, st')).
Proof.
  split; [apply delete_absent|].
  intros sh H. destruct (delete_present st sid sh H) as (sh' & Ht & Ha & Hd).
  exists sh'. eexists. split; [exact Hd|]. split; [exact Ht|].
  split; [exact Ha|]. split; [reflexivity|].
  unfold get, count, gets; simpl.
  split; [now rewrite lookup_delete_eq|].
  split; [intros sid' Hne; now rewrite lookup_delete_ne|].
  split.
  - rewrite map_size_delete, H. simpl. f_equal.
    assert (size (_sessions st) <> 0%nat) as Hnz.
    { apply map_size_non_empty_iff. intros He. rewrite He in H.
      now rewrite lookup_empty in H. }
    lia.
  - apply delete_absent. simpl. apply lookup_delete_eq.
Qed.

Lemma store_delete_removes_witness :
  Store.delete "nope" (store three_sessions) = (Ok false, store three_sessions)
  /\ exists sh' st',
       Store.delete "busy" (store three_sessions) = (Ok true, st')
       /\ terminate busy_session = (Ok tt, sh')
       /\ is_alive sh' = false
       /\ released st' = ("busy", sh') :: released (store three_sessions)
       /\ get "busy" st' = (Ok None, st')
       /\ (forall sid', sid' <> "busy" ->
             _sessions st' !! sid' = _sessions (store three_sessions) !! sid')
       /\ fst (count st') = Ok (Z.of_nat (size (_sessions (store three_sessions))) - 1)
       /\ Store.delete "busy" st' = (Ok false, st').
Proof.
  split.
  - exact (proj1 (store_delete_removes (store three_sessions) "nope") eq_refl).
  - exact (proj2 (store_delete_removes (store three_sessions) "busy")
                 busy_session eq_refl).
Defined.

(** X12.  [get_all_ids] lists every registered id exactly once and nothing
    else, and [count] is the length of that list. *)
Theorem store_ids_and_count (st : SessionStore) :
  exists ids,
    get_all_ids st = (Ok ids, st)
    /\ NoDup ids
    /\ count st = (Ok (Z.of_nat (length ids)), st)
    /\ forall sid, sid ∈ ids <-> exists sh, get sid st = (Ok (Some sh), st).
Proof.
  eexists. split; [reflexivity|]. split; [apply NoDup_fst_map_to_list|].
  split.
  - unfold count, gets. now rewrite length_fmap, length_map_to_list.
  - intros sid. unfold get, gets. rewrite list_elem_of_fmap. split.
    + intros ([k sh] & -> & Hin). apply elem_of_map_to_list in Hin.
      exists sh. simpl. now rewrite Hin.
    + intros (sh & [= H]). exists (sid, sh). split; [reflexivity|].
      now apply elem_of_map_to_list.
Qed.

End StoreMore.

Section StoreRuns.
Import Config Shell Store Manager Fixtures.

Lemma store_create_then_get_witness :
  exists st',
    create "busy" idle_session (store three_sessions) = (Ok tt, st')
    /\ get "busy" st' = (Ok (Some idle_session), st')
    /\ (forall sid', sid' <> "busy" ->
          fst (get sid' st') = fst (get sid' (store three_sessions)))
    /\ released st' = released (store three_sessions)
    /\ fst (count st') = Ok 3.
Proof.
  exact (store_create_then_get (store three_sessions) "busy" idle_session).
Defined.

Lemma store_ids_and_count_witness :
  exists ids,
    get_all_ids (store three_sessions) = (Ok ids, store three_sessions)
    /\ NoDup ids
    /\ count (store three_sessions) = (Ok (Z.of_nat (length ids)), store three_sessions)
    /\ forall sid,
         sid ∈ ids <->
         exists sh, get sid (store three_sessions) = (Ok (Some sh), store three_sessions).
Proof.
  exact (store_ids_and_count (store three_sessions)).
Defined.

End StoreRuns.

(** ** [SessionManager]: how its operations compose *)

Section ManagerMore.
Import Pexpect Config Shell Store Manager Fixtures.

Lemma start_returns_form (launch : res spawn) (now : Z)
      (self self' : ShellProcess) :
  start launch now self = (Ok tt, self') ->
  exists proc,
    isalive proc = true
    /\ self' = set_last_activity now (set_process (Some proc) self).
Proof.
  unfold start, _spawn_shell, bind, sendline, expect.
  destruct launch as [[al bf sc sn]|e]; simpl; [|discriminate].
  destruct al; simpl; [|discriminate].
  destruct (next_wait sc) as [[o|o|o|m] rest]; simpl; try discriminate.
  intros [= <-].
  exists (set_before "" (Spawn true (Some o) rest
            (("export PS1=" +:+ dquote +:+ prompt self +:+ dquote) :: sn))).
  split; reflexivity.
Qed.

(** X13.  A [create_session] call that returns was made below capacity and
    hands back the id it was given with a session that is alive, whose
    working directory is the configured one and whose last activity is the
    reading taken by [start]; a [get_session] for that id right afterwards
    finds this very session and changes nothing. *)
Theorem create_session_then_get
        (self self' : SessionManager) (sid sid' : string)
        (launch : res spawn) (t_init t_started : Z) (sh : ShellProcess) :
  create_session sid launch t_init t_started self = (Ok (sid', sh), self') ->
  sid' = sid
  /\ Z.of_nat (size (_sessions (store self))) < max_sessions (session_config self)
  /\ is_alive sh = true
  /\ working_dir sh = working_directory (security_config self)
  /\ last_activity sh = t_started
  /\ get_session sid self' = (Ok (Some sh), self').
Proof.
  destruct (Z_lt_ge_dec (Z.of_nat (size (_sessions (store self))))
                        (max_sessions (session_config self))) as [Hlt|Hge].
  - rewrite (create_session_room _ _ _ _ _ Hlt).
    destruct (start launch t_started _) as [[[]|e] sh0] eqn:Hs;
      [|discriminate].
    intros [= <- <- <-].
    destruct (start_returns_form _ _ _ _ Hs) as (proc & Hp & ->).
    repeat split; try assumption.
    apply get_session_alive; [apply lookup_insert_eq|exact Hp].
  - rewrite (create_session_full _ _ _ _ _ Hge). discriminate.
Qed.

Lemma create_session_then_get_witness :
  "s1" = "s1"
  /\ Z.of_nat (size (_sessions (store (manager 1))))
     < max_sessions (session_config (manager 1))
  /\ is_alive (set_last_activity 1 (set_process (Some started_child) unstarted))
     = true
  /\ working_dir (set_last_activity 1 (set_process (Some started_child) unstarted))
     = working_directory (security_config (manager 1))
  /\ last_activity (set_last_activity 1 (set_process (Some started_child) unstarted))
     = 1
  /\ get_session "s1" (snd (create_session "s1" launch_ok 0 1 (manager 1)))
     = (Ok (Some (set_last_activity 1 (set_process (Some started_child) unstarted))),
        snd (create_session "s1" launch_ok 0 1 (manager 1))).
Proof.
  exact (create_session_then_get (manager 1) _ "s1" "s1" launch_ok 0 1 _ eq_refl).
Defined.

(** X14.  [delete_session] never raises and answers whether the id was
    registered; afterwards [get_session] does not find the id, and the
    sessions under every other id are untouched. *)
Theorem delete_session_then_get (self : SessionManager) (sid : string) :
  exists b self',
    delete_session sid self = (Ok b, self')
    /\ (b = true <-> exists sh, _sessions (store self) !! sid = Some sh)
    /\ get_session sid self' = (Ok None, self')
    /\ (forall sid', sid' <> sid ->
          _sessions (store self') !! sid' = _sessions (store self) !! sid').
Proof.
  unfold delete_session, with_store.
  destruct (_sessions (store self) !! sid) as [sh|] eqn:H.
  - destruct (delete_present _ _ _ H) as (sh' & _ & _ & ->).
    do 2 eexists. split; [reflexivity|]. split; [split; eauto|].
    split.
    + apply get_session_absent. simpl. apply lookup_delete_eq.
    + intros sid' Hne. simpl. now rewrite lookup_delete_ne.
  - rewrite (delete_absent _ _ H), set_store_id.
    do 2 eexists. split; [reflexivity|].
    split; [split; [discriminate|intros [sh Hs]; discriminate]|].
    split; [now apply get_session_absent|reflexivity].
Qed.

Lemma delete_session_then_get_witness :
  exists b self',
    delete_session "busy" three_sessions = (Ok b, self')
    /\ (b = true <-> exists sh, _sessions (store three_sessions) !! "busy" = Some sh)
    /\ get_session "busy" self' = (Ok None, self')
    /\ (forall sid', sid' <> "busy" ->
          _sessions (store self') !! sid'
          = _sessions (store three_sessions) !! sid').
Proof.
  exact (delete_session_then_get three_sessions "busy").
Defined.

(** X15.  [get_session] never raises, touches no entry but the one asked
    for, keeps the configuration, and settles: asking again right away
    gives the same answer and changes nothing more. *)
Theorem get_session_settles (self : SessionManager) (sid : string) :
  exists o self',
    get_session sid self = (Ok o, self')
    /\ get_session sid self' = (Ok o, self')
    /\ session_config self' = session_config self
    /\ (forall sid', sid' <> sid ->
          _sessions (store self') !! sid' = _sessions (store self) !! sid').
Proof.
  destruct (_sessions (store self) !! sid) as [sh|] eqn:H.
  - destruct (is_alive sh) eqn:Ha.
    + rewrite (get_session_alive _ _ _ H Ha).
      do 2 eexists. split; [reflexivity|].
      split; [now apply get_session_alive|]. split; reflexivity.
    + rewrite (get_session_dead _ _ _ H Ha).
      do 2 eexists. split; [reflexivity|].
      split; [apply get_session_absent; simpl; apply lookup_delete_eq|].
      split; [reflexivity|].
      intros sid' Hne. simpl. now rewrite lookup_delete_ne.
  - rewrite (get_session_absent _ _ H).
    do 2 eexists. split; [reflexivity|].
    split; [now apply get_session_absent|]. split; reflexivity.
Qed.

Lemma get_session_settles_witness :
  exists o self',
    get_session "dead" three_sessions = (Ok o, self')
    /\ get_session "dead" self' = (Ok o, self')
    /\ session_config self' = session_config three_sessions
    /\ (forall sid', sid' <> "dead" ->
          _sessions (store self') !! sid'
          = _sessions (store three_sessions) !! sid').
Proof.
  exact (get_session_settles three_sessions "dead").
Defined.

Lemma sweep_loop_fresh (clock : string -> Z) (l : list string)
      (self : SessionManager) :
  (forall sid sh,
     _sessions (store self) !! sid = Some sh ->
     idle_time sh (clock sid) <= timeout (session_config self)
     /\ is_alive sh = true) ->
  for_each l (_cleanup_one clock) self = (Ok tt, self).
Proof.
  intros Hfresh. induction l as [|x l IH]; [reflexivity|].
  cbn [for_each]. unfold bind.
  destruct (_cleanup_one_cases clock self x)
    as [[-> _]|(sh & sh' & Hx & Hstale & _)]; [exact IH|].
  destruct (Hfresh x sh Hx) as [Hle Hal].
  destruct Hstale; [lia|congruence].
Qed.

(** X16.  The sweep settles: a second sweep taking the same clock readings
    right after the first finds nothing to evict and leaves the manager
    exactly as the first sweep left it. *)
Theorem cleanup_twice_same (clock : string -> Z) (self : SessionManager) :
  exists self',
    _cleanup_expired_sessions clock self = (Ok tt, self')
    /\ _cleanup_expired_sessions clock self' = (Ok tt, self').
Proof.
  unfold _cleanup_expired_sessions, bind, with_store, get_all_ids, gets.
  rewrite set_store_id.
  destruct (sweep_loop clock (map_to_list (_sessions (store self))).*1 self)
    as (self' & -> & Hc & HA & _ & _ & _ & HF).
  exists self'. split; [reflexivity|]. rewrite set_store_id.
  apply sweep_loop_fresh. intros sid sh Hs'.
  assert (_sessions (store self) !! sid = Some sh) as Hs
    by (eapply lookup_weaken; eassumption).
  rewrite Hc.
  destruct (Z_le_gt_dec (idle_time sh (clock sid)) (timeout (session_config self)))
    as [Hle|Hgt].
  - destruct (is_alive sh) eqn:Ha; [auto|].
    destruct (HA sid sh Hs) as [Hnone _]; [|now right|congruence].
    apply list_elem_of_fmap. exists (sid, sh). split; [reflexivity|].
    now apply elem_of_map_to_list.
  - destruct (HA sid sh Hs) as [Hnone _]; [|left; lia|congruence].
    apply list_elem_of_fmap. exists (sid, sh). split; [reflexivity|].
    now apply elem_of_map_to_list.
Qed.

End ManagerMore.

(** ** Shutdown *)

Section ShutdownMore.
Import Pexpect Config Shell Store Manager Fixtures Lifecycle.

Lemma shutdown_step (svc : Service) (x : string) :
  (_sessions (store (manager svc)) !! x = None
   /\ (do! with_manager (with_store (Store.delete x)) in ret tt) svc
      = (Ok tt, svc))
  \/ (exists shx shx',
        _sessions (store (manager svc)) !! x = Some shx
        /\ terminate shx = (Ok tt, shx')
        /\ is_alive shx' = false
        /\ (do! with_manager (with_store (Store.delete x)) in ret tt) svc
           = (Ok tt,
              mkService
                (set_store
                   (mkSessionStore
                      (base.delete x (_sessions (store (manager svc))))
                      ((x, shx') :: released (store (manager svc))))
                   (manager svc))
                (_cleanup_task svc))).
Proof.
  unfold bind, with_manager, with_store, ret.
  destruct (_sessions (store (manager svc)) !! x) as [shx|] eqn:Hx.
  - right. destruct (delete_present _ _ _ Hx) as (shx' & Htx & Hax & ->).
    exists shx, shx'. auto.
  - left. rewrite (delete_absent _ _ Hx), set_store_id.
    split; [reflexivity|]. now destruct svc.
Qed.

Lemma shutdown_loop (l : list string) :
  forall svc : Service,
  exists svc',
    for_each l
      (fun session_id =>
         do! with_manager (with_store (Store.delete session_id)) in ret tt) svc
    = (Ok tt, svc')
    /\ _cleanup_task svc' = _cleanup_task svc
    /\ (forall sid, sid ∈ l -> _sessions (store (manager svc')) !! sid = None)
    /\ (forall sid, _sessions (store (manager svc)) !! sid = None ->
                    _sessions (store (manager svc')) !! sid = None)
    /\ (forall x, x ∈ released (store (manager svc)) ->
                  x ∈ released (store (manager svc')))
    /\ (forall sid sh,
          sid ∈ l ->
          _sessions (store (manager svc)) !! sid = Some sh ->
          exists sh', (sid, sh') ∈ released (store (manager svc'))
                      /\ terminate sh = (Ok tt, sh')
                      /\ is_alive sh' = false).
Proof.
  induction l as [|x l IH]; intros svc.
  - exists svc. simpl. unfold ret.
    split; [reflexivity|]. split; [reflexivity|].
    split; [intros sid Hin; inversion Hin|].
    split; [auto|]. split; [auto|].
    intros sid sh Hin. inversion Hin.
  - cbn [for_each]. unfold bind at 1. cbv beta.
    destruct (shutdown_step svc x)
      as [[Hx ->]|(shx & shx' & Hx & Htx & Hax & ->)].
    + destruct (IH svc) as (svc' & -> & Ht & Hin & Hnone & Hrel & Hterm).
      exists svc'. split; [reflexivity|]. split; [exact Ht|].
      split; [|split; [|split]]; auto.
      * intros sid Hsid. inversion Hsid; subst; [now apply Hnone|now apply Hin].
      * intros sid sh Hsid Hs. apply Hterm; [|exact Hs].
        inversion Hsid; subst; [congruence|assumption].
    + match goal with
      | |- context [for_each l _ ?s] => destruct (IH s)
          as (svc' & -> & Ht & Hin & Hnone & Hrel & Hterm)
      end.
      simpl in Ht, Hnone, Hrel, Hterm.
      exists svc'. split; [reflexivity|]. split; [exact Ht|].
      split; [|split; [|split]].
      * intros sid Hsid. inversion Hsid; subst; [|now apply Hin].
        apply Hnone. apply lookup_delete_eq.
      * intros sid Hs. apply Hnone.
        destruct (decide (sid = x)) as [->|Hne];
          [apply lookup_delete_eq|now rewrite lookup_delete_ne].
      * intros y Hy. apply Hrel. now right.
      * intros sid sh Hsid Hs.
        destruct (decide (sid = x)) as [->|Hne].
        -- assert (shx = sh) as -> by congruence.
           exists shx'. split; [apply Hrel; left|]. auto.
        -- apply Hterm; [|now rewrite lookup_delete_ne].
           inversion Hsid; subst; [congruence|assumption].
Qed.

Lemma service_all_ids (svc : Service) :
  with_manager (with_store get_all_ids) svc
  = (Ok (map_to_list (_sessions (store (manager svc)))).*1, svc).
Proof.
  unfold with_manager, with_store, get_all_ids, gets.
  rewrite set_store_id. now destruct svc.
Qed.

Lemma stop_cleanup_task_spec (svc : Service) :
  exists svc0,
    stop_cleanup_task svc = (Ok tt, svc0)
    /\ _cleanup_task svc0 = None
    /\ manager svc0 = manager svc.
Proof.
  unfold stop_cleanup_task. destruct (_cleanup_task svc) eqn:E; eauto.
Qed.

(** X17.  [shutdown] returns normally with no cleanup task scheduled and
    an empty store, and every session that was registered has been
    terminated: it is among the released objects, in the state [terminate]
    left it in, not alive. *)
Theorem shutdown_terminates_everything (svc : Service) :
  exists svc',
    shutdown svc = (Ok tt, svc')
    /\ _cleanup_task svc' = None
    /\ _sessions (store (manager svc')) = ∅
    /\ forall sid sh,
         _sessions (store (manager svc)) !! sid = Some sh ->
         exists sh', (sid, sh') ∈ released (store (manager svc'))
                     /\ terminate sh = (Ok tt, sh')
                     /\ is_alive sh' = false.
Proof.
  unfold shutdown. unfold bind at 1.
  destruct (stop_cleanup_task_spec svc) as (svc0 & -> & Ht0 & Hm0).
  unfold bind at 1. rewrite service_all_ids.
  destruct (shutdown_loop (map_to_list (_sessions (store (manager svc0)))).*1 svc0)
    as (svc' & -> & Ht & Hin & Hnone & _ & Hterm).
  rewrite Hm0 in *.
  assert (forall sid sh, _sessions (store (manager svc)) !! sid = Some sh ->
            sid ∈ (map_to_list (_sessions (store (manager svc)))).*1) as Hids.
  { intros sid sh Hs. apply list_elem_of_fmap. exists (sid, sh).
    split; [reflexivity|]. now apply elem_of_map_to_list. }
  exists svc'. split; [reflexivity|]. split; [congruence|]. split.
  - apply map_empty. intros sid.
    destruct (_sessions (store (manager svc)) !! sid) as [sh|] eqn:Hs.
    + apply Hin. eapply Hids. eassumption.
    + now apply Hnone.
  - intros sid sh Hs. apply Hterm; [eapply Hids; eassumption|exact Hs].
Qed.

Lemma shutdown_terminates_everything_witness :
  exists svc',
    shutdown (mkService three_sessions (Some CleanupLoop)) = (Ok tt, svc')
    /\ _cleanup_task svc' = None
    /\ _sessions (store (manager svc')) = ∅
    /\ exists sh', ("busy", sh') ∈ released (store (manager svc'))
                   /\ terminate busy_session = (Ok tt, sh')
                   /\ is_alive sh' = false.
Proof.
  destruct (shutdown_terminates_everything
              (mkService three_sessions (Some CleanupLoop)))
    as (svc' & Hrun & Ht & He & H).
  exists svc'. split; [exact Hrun|]. split; [exact Ht|]. split; [exact He|].
  exact (H "busy" busy_session eq_refl).
Defined.

End ShutdownMore.

(** ** [SecurityValidator.validate_command] *)

Section ValidatorMore.
Import Config Validator Fixtures.

Lemma strip_head (s : string) :
  Py.strip s = EmptyString
  \/ exists c t, Py.strip s = String c t /\ Py.isspace c = false.
Proof.
  unfold Py.strip.
  destruct (lstrip_head s) as [->|(c & t & -> & Hc)]; [now left|].
  right. destruct (rstrip_head c t Hc) as [t' ->]. eauto.
Qed.

Lemma check_blocklist_accepts (ps : list Pattern) (cmd : string) :
  check_blocklist ps cmd = Ok tt <-> Forall (fun p => search p cmd = false) ps.
Proof.
  induction ps as [|p ps IH]; simpl.
  - split; [constructor|reflexivity].
  - destruct (search p cmd) eqn:E.
    + split; [discriminate|]. intros H. inversion H; congruence.
    + rewrite IH. split; [now constructor|]. intros H. now inversion H.
Qed.

Lemma contains_In (l : list string) (x : string) :
  Py.contains l x = true <-> In x l.
Proof.
  unfold Py.contains. rewrite existsb_exists. split.
  - intros (y & Hy & Heq). apply String.eqb_eq in Heq. now subst.
  - intros H. exists x. split; [exact H|apply String.eqb_refl].
Qed.

(** X18.  With validation enabled, [validate_command] accepts a command
    exactly when, after stripping surrounding whitespace, it is not empty,
    its first word is in the allowlist (or no allowlist is configured) and
    no compiled blocked pattern is found in it; with validation disabled
    it accepts everything.  Only the first word is held against the
    allowlist. *)
Theorem validate_command_accepts_iff (v : SecurityValidator) (cmd : string) :
  validate_command v cmd = Ok tt <->
  enabled (config v) = false
  \/ (Py.strip cmd <> ""
      /\ (allowed_executables (config v) = []
          \/ exists exe, Py.split_first (Py.strip cmd) = Some exe
                         /\ In exe (allowed_executables (config v)))
      /\ Forall (fun p => search p (Py.strip cmd) = false)
                (_compiled_patterns v)).
Proof.
  unfold validate_command. cbv zeta.
  destruct (enabled (config v)); simpl; [|split; auto].
  destruct (strip_head cmd) as [->|(c & t & -> & Hc)].
  - split; [discriminate|]. intros [?|[? _]]; congruence.
  - assert (Py.split_first (String c t) = Some (Py.word (String c t))) as Hw
      by (unfold Py.split_first; now rewrite (lstrip_nonspace _ _ Hc)).
    assert (default "" (Py.split_first (String c t)) = Py.word (String c t))
      as Hd by (now rewrite Hw).
    rewrite Hd, Hw. set (w := Py.word (String c t)) in *.
    destruct (allowed_executables (config v)) as [|a l] eqn:Hal.
    + split.
      * intros H. apply check_blocklist_accepts in H.
        right. split; [discriminate|]. split; [now left|exact H].
      * intros [?|(_ & _ & H)]; [discriminate|].
        now apply check_blocklist_accepts.
    + destruct (Py.contains (a :: l) w) eqn:Hin; cbn [negb].
      * apply contains_In in Hin. split.
        -- intros H. apply check_blocklist_accepts in H.
           right. split; [discriminate|]. split; [|exact H].
           right. eauto.
        -- intros [?|(_ & _ & H)]; [discriminate|].
           now apply check_blocklist_accepts.
      * split; [discriminate|].
        intros [?|(_ & [?|(exe & [= <-] & Hexe)] & _)]; try discriminate.
        apply contains_In in Hexe. congruence.
Qed.

Lemma validate_command_accepts_iff_witness :
  validate_command guarded "ls && rm important" = Ok tt
  /\ validate_command lenient "rm -rf /" = Ok tt.
Proof.
  split.
  - apply (proj2 (validate_command_accepts_iff guarded "ls && rm important")).
    right. split; [discriminate|]. split.
    + right. exists "ls". split; [reflexivity|]. vm_compute. tauto.
    + repeat constructor.
  - apply (proj2 (validate_command_accepts_iff lenient "rm -rf /")).
    left. reflexivity.
Defined.

End ValidatorMore.

Section ValidatorRejections.
Import Config Validator Fixtures.

Lemma lstrip_all_space (s : string) :
  Forall (fun c => Py.isspace c = true) (list_ascii_of_string s) ->
  Py.lstrip s = EmptyString.
Proof.
  induction s as [|c s IH]; simpl; [reflexivity|].
  intros H. inversion H as [|? ? Hc Hs]; subst. rewrite Hc. now apply IH.
Qed.

(** X19.  Leading and trailing whitespace never changes the verdict of
    [validate_command], and with validation enabled a command made of
    whitespace only (the empty command included) is rejected with
    "Empty command". *)
Theorem validate_command_whitespace (v : SecurityValidator) (cmd : string) :
  validate_command v (Py.strip cmd) = validate_command v cmd
  /\ (enabled (config v) = true ->
      Forall (fun c => Py.isspace c = true) (list_ascii_of_string cmd) ->
      validate_command v cmd = Raise (Exn ValueError "Empty command")).
Proof.
  split.
  - unfold validate_command. now rewrite strip_idem.
  - intros He Hs. unfold validate_command, Py.strip.
    rewrite He, (lstrip_all_space cmd Hs). reflexivity.
Qed.

Lemma validate_command_whitespace_witness :
  validate_command guarded (Py.strip ("  ls -l" +:+ crlf))
    = validate_command guarded ("  ls -l" +:+ crlf)
  /\ validate_command guarded ("  " +:+ crlf)
     = Raise (Exn ValueError "Empty command").
Proof.
  split.
  - exact (proj1 (validate_command_whitespace guarded ("  ls -l" +:+ crlf))).
  - apply (proj2 (validate_command_whitespace guarded ("  " +:+ crlf)));
      [reflexivity|repeat constructor].
Defined.

Lemma check_blocklist_first_match (ps qs : list Pattern) (p : Pattern) (cmd : string) :
  Forall (fun q => search q cmd = false) ps ->
  search p cmd = true ->
  check_blocklist (ps ++ p :: qs)%list cmd =
    Raise (Exn ValueError ("Command matches blocked pattern: " +:+ pattern p)).
Proof.
  induction ps as [|q ps IH]; simpl; intros Hps Hp.
  - now rewrite Hp.
  - inversion Hps as [|? ? Hq Hrest]; subst. rewrite Hq. now apply IH.
Qed.

(** X20.  With validation enabled and a command that is not empty: the
    allowlist is consulted before the blocked patterns, so a first word
    outside a configured allowlist is reported as such (with the whole
    allowlist in the message) whatever the patterns say; and when the
    allowlist lets the command through, the rejection names the first
    blocked pattern, in configuration order, that is found in the
    command. *)
Theorem validate_command_rejections
        (v : SecurityValidator) (cmd exe : string) :
  enabled (config v) = true ->
  Py.split_first (Py.strip cmd) = Some exe ->
  (allowed_executables (config v) <> [] ->
   ~ In exe (allowed_executables (config v)) ->
   validate_command v cmd =
     Raise (Exn ValueError
                ("Command '" +:+ exe +:+ "' is not in the allowlist. Allowed: "
                   +:+ Py.join ", " (allowed_executables (config v)))))
  /\ (forall (ps : list Pattern) (p : Pattern) (qs : list Pattern),
        allowed_executables (config v) = []
        \/ In exe (allowed_executables (config v)) ->
        _compiled_patterns v = (ps ++ p :: qs)%list ->
        Forall (fun q => search q (Py.strip cmd) = false) ps ->
        search p (Py.strip cmd) = true ->
        validate_command v cmd =
          Raise (Exn ValueError
                     ("Command matches blocked pattern: " +:+ pattern p))).
Proof.
  intros He Hexe. unfold validate_command. cbv zeta. rewrite He, Hexe.
  cbn [negb default from_option id].
  destruct (Py.strip cmd) as [|c t] eqn:Hs; [discriminate|].
  split.
  - intros Hne Hnin.
    destruct (allowed_executables (config v)) as [|a l]; [congruence|].
    destruct (Py.contains (a :: l) exe) eqn:Hc; [|reflexivity].
    apply contains_In in Hc. contradiction.
  - intros ps p qs Hallow -> Hps Hp.
    destruct (allowed_executables (config v)) as [|a l].
    + now apply check_blocklist_first_match.
    + destruct Hallow as [?|Hin]; [discriminate|].
      apply contains_In in Hin. rewrite Hin. cbn [negb].
      now apply check_blocklist_first_match.
Qed.

Lemma validate_command_rejections_witness :
  validate_command guarded "cat /etc/passwd; rm -rf /" =
    Raise (Exn ValueError
               "Command 'cat' is not in the allowlist. Allowed: ls, rm")
  /\ validate_command guarded "rm -rf /" =
       Raise (Exn ValueError "Command matches blocked pattern: rm -rf").
Proof.
  split.
  - apply (proj1 (validate_command_rejections
                    guarded "cat /etc/passwd; rm -rf /" "cat" eq_refl eq_refl)).
    + discriminate.
    + vm_compute. intros [H|[H|[]]]; discriminate.
  - apply (proj2 (validate_command_rejections
                    guarded "rm -rf /" "rm" eq_refl eq_refl)
                 [] (literal "rm -rf") []).
    + right. vm_compute. tauto.
    + reflexivity.
    + constructor.
    + reflexivity.
Defined.

End ValidatorRejections.

(** ** The tool handlers on a session manager *)

Section HandlersMore.
Import Pexpect Config Models Shell Store Manager Validator Tools Handlers Fixtures.




End HandlersMore.

Section HandlersOnLiveSessions.
Import Pexpect Config Models Shell Store Manager Validator Tools Handlers Fixtures.

(** X22.  For a command the validator accepts and a registered session
    that is alive, [handle_execute_command] returns the dump of exactly
    what [execute] returns for the command as given, and the store then
    holds the session in the state [execute] left it in; every other entry
    is untouched. *)
Theorem handle_execute_command_runs
        (self : SessionManager) (sid cmd : string) (tmo : Z)
        (v : SecurityValidator) (t : readings) (sh : ShellProcess) :
  validate_command v cmd = Ok tt ->
  _sessions (store self) !! sid = Some sh ->
  is_alive sh = true ->
  exists r sh',
    execute cmd tmo t sh = (Ok r, sh')
    /\ handle_execute_command sid cmd tmo v t self =
         (Ok (model_dump r),
          set_sessions (<[sid := sh']> (_sessions (store self))) self)
    /\ forall sid', sid' <> sid ->
         <[sid := sh']> (_sessions (store self)) !! sid'
         = _sessions (store self) !! sid'.
Proof.
  intros Hv H Ha.
  destruct (execute_running sh cmd tmo t Ha) as (r & sh' & Hex & _).
  exists r, sh'. split; [exact Hex|]. split.
  - unfold handle_execute_command, bind. rewrite Hv.
    rewrite (get_session_alive _ _ _ H Ha). unfold execute_in_store.
    now rewrite Hex.
  - intros sid' Hne. now rewrite lookup_insert_ne.
Qed.

Lemma handle_execute_command_runs_witness :
  exists r sh',
    execute "ls && rm x" 30 ticks busy_session = (Ok r, sh')
    /\ handle_execute_command "busy" "ls && rm x" 30 guarded ticks three_sessions =
         (Ok (model_dump r),
          set_sessions (<["busy" := sh']> (_sessions (store three_sessions)))
                       three_sessions)
    /\ forall sid', sid' <> "busy" ->
         <["busy" := sh']> (_sessions (store three_sessions)) !! sid'
         = _sessions (store three_sessions) !! sid'.
Proof.
  apply (handle_execute_command_runs three_sessions "busy" "ls && rm x" 30
                                     guarded ticks busy_session).
  - vm_compute. reflexivity.
  - reflexivity.
  - reflexivity.
Defined.




(** A live session whose [pwd] probe finds no prompt answers its recorded
    working directory; a dead one is reported as not found and evicted. *)
Example get_cwd_of_silent_and_dead_sessions :
  fst (handle_get_cwd "idle" ticks three_sessions)
    = Ok [("cwd", VStr "/workspace")]
  /\ fst (handle_get_cwd "dead" ticks three_sessions) = Ok not_found
  /\ _sessions (store (snd (handle_get_cwd "dead" ticks three_sessions)))
       !! "dead" = None.
Proof. vm_compute. repeat split. Qed.

Lemma reset_returns_alive (launch : res spawn) (now : Z)
      (sh sh' : ShellProcess) :
  reset launch now sh = (Ok tt, sh') ->
  is_alive sh' = true /\ last_activity sh' = now.
Proof.
  unfold reset, bind.
  destruct (terminate_returns sh) as (s1 & -> & _).
  destruct (start launch now s1) as [[[]|e] s2] eqn:Hs; [|discriminate].
  intros [= <-]. exact (start_returns_alive _ _ _ _ Hs).
Qed.

Lemma reset_raises_dead (launch : res spawn) (now : Z)
      (sh sh' : ShellProcess) (e : exn) :
  reset launch now sh = (Raise e, sh') -> is_alive sh' = false.
Proof.
  unfold reset, bind.
  destruct (terminate_returns sh) as (s1 & -> & Ha1).
  destruct (start launch now s1) as [[[]|e0] s2] eqn:Hs; [discriminate|].
  intros [= _ <-]. now rewrite (start_raises_unchanged _ _ _ _ _ Hs).
Qed.

(** X24.  [handle_reset_session] on a live session: when the new shell
    starts, it answers "reset" and the id now leads to a live session
    whose last activity is the reading of the restart; when the new shell
    cannot be started, the error is raised to the caller, the session left
    under the id is dead, and the next [get_session] evicts it.  For an
    unknown id nothing is spawned and the answer is
    "Session not found or expired". *)
Theorem handle_reset_session_outcome
        (self : SessionManager) (sid : string) (launch : res spawn) (now : Z) :
  (_sessions (store self) !! sid = None ->
   handle_reset_session sid launch now self = (Ok not_found, self))
  /\ (forall sh,
        _sessions (store self) !! sid = Some sh ->
        is_alive sh = true ->
        exists r sh',
          reset launch now sh = (r, sh')
          /\ snd (handle_reset_session sid launch now self)
             = set_sessions (<[sid := sh']> (_sessions (store self))) self
          /\ match r with
             | Ok _ =>
                 fst (handle_reset_session sid launch now self) = Ok reset_done
                 /\ last_activity sh' = now
                 /\ fst (get_session sid
                           (snd (handle_reset_session sid launch now self)))
                    = Ok (Some sh')
             | Raise e =>
                 fst (handle_reset_session sid launch now self) = Raise e
                 /\ fst (get_session sid
                           (snd (handle_reset_session sid launch now self)))
                    = Ok None
                 /\ _sessions (store (snd (get_session sid
                           (snd (handle_reset_session sid launch now self)))))
                      !! sid = None
             end).
Proof.
  split.
  - intros H. unfold handle_reset_session, bind.
    now rewrite (get_session_absent _ _ H).
  - intros sh H Ha.
    destruct (reset launch now sh) as [r sh'] eqn:Hr.
    exists r, sh'. split; [reflexivity|].
    unfold handle_reset_session, bind.
    rewrite (get_session_alive _ _ _ H Ha). unfold on_stored_shell.
    rewrite Hr. destruct r as [[]|e]; simpl.
    + split; [reflexivity|].
      destruct (reset_returns_alive _ _ _ _ Hr) as [Hal Hla].
      split; [reflexivity|]. split; [exact Hla|].
      rewrite (get_session_alive _ sid sh'); [reflexivity| |exact Hal].
      simpl. apply lookup_insert_eq.
    + split; [reflexivity|].
      pose proof (reset_raises_dead _ _ _ _ _ Hr) as Hd.
      split; [reflexivity|].
      rewrite (get_session_dead _ sid sh'); [|simpl; apply lookup_insert_eq|exact Hd].
      split; [reflexivity|]. simpl. apply lookup_delete_eq.
Qed.

Lemma handle_reset_session_outcome_witness :
  handle_reset_session "nope" launch_ok 9 three_sessions
    = (Ok not_found, three_sessions)
  /\ (exists r sh',
        reset launch_fails 9 busy_session = (r, sh')
        /\ snd (handle_reset_session "busy" launch_fails 9 three_sessions)
           = set_sessions (<["busy" := sh']> (_sessions (store three_sessions)))
                          three_sessions
        /\ match r with
           | Ok _ =>
               fst (handle_reset_session "busy" launch_fails 9 three_sessions)
                 = Ok reset_done
               /\ last_activity sh' = 9
               /\ fst (get_session "busy"
                         (snd (handle_reset_session "busy" launch_fails 9
                                                    three_sessions)))
                  = Ok (Some sh')
           | Raise e =>
               fst (handle_reset_session "busy" launch_fails 9 three_sessions)
                 = Raise e
               /\ fst (get_session "busy"
                         (snd (handle_reset_session "busy" launch_fails 9
                                                    three_sessions)))
                  = Ok None
               /\ _sessions (store (snd (get_session "busy"
                         (snd (handle_reset_session "busy" launch_fails 9
                                                    three_sessions)))))
                    !! "busy" = None
           end).
Proof.
  split.
  - exact (proj1 (handle_reset_session_outcome three_sessions "nope" launch_ok 9)
                 eq_refl).
  - exact (proj2 (handle_reset_session_outcome three_sessions "busy" launch_fails 9)
                 busy_session eq_refl eq_refl).
Defined.

Example reset_failure_kills_the_session :
  fst (handle_reset_session "busy" launch_fails 9 three_sessions)
  = Raise (Exn ExceptionPexpect
               "The command was not found or was not executable: /bin/nosuch.")
  /\ fst (get_session "busy"
            (snd (handle_reset_session "busy" launch_fails 9 three_sessions)))
     = Ok None.
Proof. vm_compute. split; reflexivity. Qed.

End HandlersOnLiveSessions.

(** ** The server's tools on the global shell *)

Section ServerMore.
Import Pexpect Config Models Shell Validator Server ServerTools Fixtures.

Lemma ensure_shell_cases (st : state) (launch : res spawn) (t_init t_started : Z) :
  (exists sh, global_shell st = Some sh /\ is_alive sh = true
              /\ ensure_shell launch t_init t_started st = (Ok sh, st))
  \/ ((forall sh, global_shell st = Some sh -> is_alive sh = false)
      /\ ((exists sh, ensure_shell launch t_init t_started st
                      = (Ok sh, set_global_shell (Some sh) st)
                      /\ is_alive sh = true /\ last_activity sh = t_started)
          \/ (exists e, ensure_shell launch t_init t_started st
                        = (Raise e,
                           set_global_shell
                             (Some (Shell.__init__ (shell_cfg st)
                                      (working_directory (security_cfg st)) t_init))
                             st)))).
Proof.
  unfold ensure_shell.
  assert (forall sh0 : ShellProcess,
            (exists sh, (let (r, sh') := start launch t_started sh0 in
                         match r with
                         | Ok _ => (Ok sh', set_global_shell (Some sh') st)
                         | Raise e => (Raise e, set_global_shell (Some sh') st)
                         end) = (Ok sh, set_global_shell (Some sh) st)
                        /\ is_alive sh = true /\ last_activity sh = t_started)
            \/ (exists e, (let (r, sh') := start launch t_started sh0 in
                           match r with
                           | Ok _ => (Ok sh', set_global_shell (Some sh') st)
                           | Raise e => (Raise e, set_global_shell (Some sh') st)
                           end) = (Raise e, set_global_shell (Some sh0) st)))
    as Hfresh.
  { intros sh0. destruct (start launch t_started sh0) as [[[]|e] sh'] eqn:Hs.
    - left. exists sh'. split; [reflexivity|].
      exact (start_returns_alive _ _ _ _ Hs).
    - right. exists e. now rewrite (start_raises_unchanged _ _ _ _ _ Hs). }
  destruct (global_shell st) as [sh|] eqn:Hg.
  - destruct (is_alive sh) eqn:Ha; simpl.
    + left. exists sh. auto.
    + right. split; [intros sh1 [= <-]; exact Ha|]. apply Hfresh.
  - right. split; [discriminate|]. apply Hfresh.
Qed.

(** X25.  [ensure_shell] reuses a global shell that is alive without
    launching anything and without changing the state; otherwise it
    launches a new one.  Whenever it returns, the shell it returns is alive
    and is the global shell; when it raises, no shell was alive before and
    the global shell is left as a session that was never started. *)
Theorem ensure_shell_outcome (st : state) (launch : res spawn)
        (t_init t_started : Z) :
  (forall sh,
     global_shell st = Some sh -> is_alive sh = true ->
     ensure_shell launch t_init t_started st = (Ok sh, st))
  /\ (forall sh st',
        ensure_shell launch t_init t_started st = (Ok sh, st') ->
        is_alive sh = true /\ global_shell st' = Some sh)
  /\ (forall e st',
        ensure_shell launch t_init t_started st = (Raise e, st') ->
        (forall sh, global_shell st = Some sh -> is_alive sh = false)
        /\ exists sh0, global_shell st' = Some sh0 /\ process sh0 = None).
Proof.
  destruct (ensure_shell_cases st launch t_init t_started)
    as [(sh & Hg & Ha & He)|(Hdead & [(sh & He & Ha & _)|(e & He)])];
    rewrite He; (split; [|split]).
  - intros sh1 Hg1 _. congruence.
  - intros sh1 st' [= <- <-]. auto.
  - discriminate.
  - intros sh1 Hg1 Ha1. rewrite (Hdead _ Hg1) in Ha1. discriminate.
  - intros sh1 st' [= <- <-]. auto.
  - discriminate.
  - intros sh1 Hg1 Ha1. rewrite (Hdead _ Hg1) in Ha1. discriminate.
  - discriminate.
  - intros e' st' [= <- <-]. split; [exact Hdead|].
    eexists. split; reflexivity.
Qed.

Lemma ensure_shell_outcome_witness :
  ensure_shell launch_fails 0 1
               (set_global_shell (Some (session [Prompt "x"])) server0)
    = (Ok (session [Prompt "x"]),
       set_global_shell (Some (session [Prompt "x"])) server0)
  /\ (is_alive (set_last_activity 1 (set_process (Some started_child) unstarted))
      = true
      /\ global_shell (snd (ensure_shell launch_ok 0 1 server0))
         = Some (set_last_activity 1 (set_process (Some started_child) unstarted)))
  /\ ((forall sh, global_shell server0 = Some sh -> is_alive sh = false)
      /\ exists sh0,
           global_shell (snd (ensure_shell launch_fails 0 1 server0)) = Some sh0
           /\ process sh0 = None).
Proof.
  split; [|split].
  - exact (proj1 (ensure_shell_outcome
                    (set_global_shell (Some (session [Prompt "x"])) server0)
                    launch_fails 0 1)
                 (session [Prompt "x"]) eq_refl eq_refl).
  - exact (proj1 (proj2 (ensure_shell_outcome server0 launch_ok 0 1))
                 _ _ eq_refl).
  - exact (proj2 (proj2 (ensure_shell_outcome server0 launch_fails 0 1))
                 _ _ eq_refl).
Defined.



End ServerMore.

Section ServerToolsMore.
Import Pexpect Config Models Shell Validator Server ServerTools Fixtures.




(** X28.  The server's [reset_session], once [ensure_shell] has provided a
    shell: when the restart succeeds it answers "reset" and the global
    shell is alive with the restart's reading as last activity; when the
    restart fails the error is raised and the global shell is left not
    alive, so that the next tool call starts a new one. *)
Theorem server_reset_session_outcome
        (st st1 : state) (launch relaunch : res spawn)
        (t_init t_started now : Z) (sh : ShellProcess) :
  ensure_shell launch t_init t_started st = (Ok sh, st1) ->
  exists r sh',
    reset relaunch now sh = (r, sh')
    /\ snd (reset_session launch t_init t_started relaunch now st)
       = set_global_shell (Some sh') st1
    /\ match r with
       | Ok _ =>
           fst (reset_session launch t_init t_started relaunch now st)
             = Ok Handlers.reset_done
           /\ is_alive sh' = true /\ last_activity sh' = now
       | Raise e =>
           fst (reset_session launch t_init t_started relaunch now st) = Raise e
           /\ is_alive sh' = false
       end.
Proof.
  intros He. unfold reset_session, bind. rewrite He. unfold on_global_shell.
  destruct (reset relaunch now sh) as [[[]|e] sh'] eqn:Hr.
  - exists (Ok tt), sh'. split; [reflexivity|]. split; [reflexivity|].
    split; [reflexivity|]. exact (reset_returns_alive _ _ _ _ Hr).
  - exists (Raise e), sh'. split; [reflexivity|]. split; [reflexivity|].
    split; [reflexivity|]. exact (reset_raises_dead _ _ _ _ _ Hr).
Qed.

Lemma server_reset_session_outcome_witness :
  exists r sh',
    reset launch_ok 9
          (set_last_activity 1 (set_process (Some started_child) unstarted))
      = (r, sh')
    /\ snd (reset_session launch_ok 0 1 launch_ok 9 server0)
       = set_global_shell (Some sh') (snd (ensure_shell launch_ok 0 1 server0))
    /\ match r with
       | Ok _ =>
           fst (reset_session launch_ok 0 1 launch_ok 9 server0)
             = Ok Handlers.reset_done
           /\ is_alive sh' = true /\ last_activity sh' = 9
       | Raise e =>
           fst (reset_session launch_ok 0 1 launch_ok 9 server0) = Raise e
           /\ is_alive sh' = false
       end.
Proof.
  exact (server_reset_session_outcome server0 _ launch_ok launch_ok 0 1 9 _
                                      eq_refl).
Defined.

End ServerToolsMore.

(** ** What can make the registry grow *)

Section RegistryGrowth.
Import Pexpect Config Shell Store Manager Validator Registry Fixtures.

(** X29.  Of the calls on a session manager only [create_session] can add
    a session: [get_session], [delete_session], the cleanup sweep and
    [handle_execute_command] leave the configuration as it is and never
    leave more sessions registered than they found, whatever their
    arguments and outcome. *)
Theorem only_create_session_grows (c : call) (self : SessionManager) :
  (forall sid launch t_init t_started,
     c <> CreateSession sid launch t_init t_started) ->
  session_config (run_call c self) = session_config self
  /\ (size (_sessions (store (run_call c self)))
      <= size (_sessions (store self)))%nat.
Proof.
  intros Hc.
  destruct c as [sid launch t1 t2|sid|sid|clock|sid cmd tmo v t]; simpl.
  - exfalso. now apply (Hc sid launch t1 t2).
  - apply get_session_shrinks.
  - apply with_store_delete_shrinks.
  - apply cleanup_shrinks.
  - apply handle_execute_command_shrinks.
Qed.

Lemma only_create_session_grows_witness :
  session_config (run_call (CleanupExpiredSessions at_5000) three_sessions)
    = session_config three_sessions
  /\ (size (_sessions (store (run_call (CleanupExpiredSessions at_5000)
                                       three_sessions)))
      <= size (_sessions (store three_sessions)))%nat.
Proof.
  apply (only_create_session_grows (CleanupExpiredSessions at_5000) three_sessions).
  intros sid launch t_init t_started. discriminate.
Defined.

End RegistryGrowth.
